(** * SOCKS VPN menu: the connection lifecycle controller of [main.go]

    A shallow embedding of the configuration loader, the connection probe and
    the connect / disconnect transitions.  External commands, the file system
    and the user database are an explicit world that the functions thread
    through; every Go function keeps its name. *)

From Stdlib Require Import ZArith Ascii String List Lia.
From stdpp Require Import base strings gmap list pretty.

#[local] Set Warnings "-register-all".

Open Scope Z_scope.
Open Scope string_scope.
Open Scope list_scope.

(** ** Package [strings] / [bytes]

    Go strings are byte sequences, here [string].  The functions below agree
    with Go's on ASCII input; bytes above 127 are never white space and are
    left alone by [ToLower] (Go's Unicode-aware versions lower no non-ASCII
    letter to one of the letters of "autossh"). *)
Module strings.

Definition isSpace (a : ascii) : bool :=
  let n := N_of_ascii a in
  ((9 <=? n)%N && (n <=? 13)%N) || (n =? 32)%N.

Fixpoint trimLeft (l : list ascii) : list ascii :=
  match l with
  | a :: l' => if isSpace a then trimLeft l' else l
  | [] => []
  end.

Definition trimRight (l : list ascii) : list ascii :=
  rev (trimLeft (rev l)).

Definition TrimSpace (s : string) : string :=
  string_of_list_ascii (trimRight (trimLeft (list_ascii_of_string s))).

Definition lowerAscii (a : ascii) : ascii :=
  let n := N_of_ascii a in
  if ((65 <=? n)%N && (n <=? 90)%N)%bool then ascii_of_N (n + 32)%N else a.

Fixpoint ToLower (s : string) : string :=
  match s with
  | EmptyString => EmptyString
  | String a s' => String (lowerAscii a) (ToLower s')
  end.

Fixpoint HasPrefix (s prefix : string) : bool :=
  match prefix, s with
  | EmptyString, _ => true
  | String p prefix', String a s' => Ascii.eqb a p && HasPrefix s' prefix'
  | String _ _, EmptyString => false
  end.

Fixpoint Contains (s substr : string) : bool :=
  HasPrefix s substr ||
  match s with
  | EmptyString => false
  | String _ s' => Contains s' substr
  end.

(** [Split s "\n"]: the pieces between newlines; never the empty list. *)
Fixpoint SplitLines (s : string) : list string :=
  match s with
  | EmptyString => [EmptyString]
  | String a s' =>
      if Ascii.eqb a "010"%char then EmptyString :: SplitLines s'
      else match SplitLines s' with
           | ln :: rest => String a ln :: rest
           | [] => [String a EmptyString]
           end
  end.

(** [Fields s]: the maximal runs of non-space bytes, as [strings.Fields]. *)
Fixpoint fieldsAux (cur : list ascii) (l : list ascii) : list string :=
  let flush rest :=
    match cur with
    | [] => rest
    | _ => string_of_list_ascii (rev cur) :: rest
    end in
  match l with
  | [] => flush []
  | a :: l' => if isSpace a then flush (fieldsAux [] l') else fieldsAux (a :: cur) l'
  end.

Definition Fields (s : string) : list string :=
  fieldsAux [] (list_ascii_of_string s).

(** The lines of a text, each ended by a line feed. *)
Definition unlines (lines : list string) : string :=
  fold_right (fun ln rest => ln +:+ String "010"%char rest) EmptyString lines.

End strings.

(** ** Data model ([main.go], lines 19-44) *)

(** Go's [int] on the supported platforms is a 64-bit signed integer. *)
Definition int_min : Z := - 2 ^ 63.
Definition int_max : Z := 2 ^ 63 - 1.

Record ServerOptions : Type := mkServerOptions {
  ServerAliveInterval : Z;
  ServerAliveCountMax : Z
}.

Record Command : Type := mkCommand {
  Name : string;
  Description : string;
  Server : string
}.

(** The field [ServerOptions] of the Go struct is [ServerOptions'] here, the
    plain name being the record type's. *)
Record Config : Type := mkConfig {
  AutoSSHPath : string;
  LocalPort : Z;
  Interface : string;
  ServerOptions' : ServerOptions;
  Commands : list Command
}.

(** ** Errors and log lines

    An [error] is either the [*exec.ExitError] of a finished child, an opaque
    error of the operating system or of a library, or a value built by
    [fmt.Errorf]; the latter and [log.Printf] lines keep their format string
    and arguments as written in the source. *)
Inductive WaitStatus : Type :=
| Exited (code : Z)
| Signaled (sig : Z).

(** [syscall.WaitStatus.ExitStatus]: -1 unless the child exited. *)
Definition ExitStatus (ws : WaitStatus) : Z :=
  match ws with
  | Exited code => code
  | Signaled _ => -1
  end.

Inductive error : Type :=
| ExitError (ws : WaitStatus)
| SysError (msg : string)
| Errorf (format : string) (args : list fmtArg)
with fmtArg : Type :=
| AStr (s : string)
| AInt (n : Z)
| AErr (e : error).

Record LogLine : Type := Logged {
  log_format : string;
  log_args : list fmtArg
}.

(** ** The world outside the program *)

(** An [exec.Command]: program and argument list. *)
Record Invocation : Type := Cmd {
  cmd_path : string;
  cmd_args : list string
}.

(** What a finished child hands back: its standard output and the error of
    [Run] / [Output] ([None] is Go's [nil]). *)
Record ExecResult : Type := mkExecResult {
  exec_stdout : string;
  exec_err : option error
}.

Record User : Type := mkUser { HomeDir : string }.

(** [app_config] is the [config] pointer of [VPNApp] ([None] is [nil]).
    [os_exec] answers a command from the commands run before it and the
    command itself, so the same command may be answered differently over
    time; [os_trace] records the commands run, oldest first.  [os_files]
    holds the files the process can read; [os_write_ok] tells whether
    [os.WriteFile] succeeds on a path. *)
Record World : Type := mkWorld {
  app_config : option Config;
  os_user : error + User;
  os_files : gmap string string;
  os_write_ok : string -> bool;
  os_exec : list Invocation -> Invocation -> ExecResult;
  os_trace : list Invocation;
  os_log : list LogLine
}.

Definition set_config (c : option Config) (w : World) : World :=
  mkWorld c (os_user w) (os_files w) (os_write_ok w) (os_exec w) (os_trace w) (os_log w).

Definition set_files (f : gmap string string) (w : World) : World :=
  mkWorld (app_config w) (os_user w) f (os_write_ok w) (os_exec w) (os_trace w) (os_log w).

Definition set_trace (t : list Invocation) (w : World) : World :=
  mkWorld (app_config w) (os_user w) (os_files w) (os_write_ok w) (os_exec w) t (os_log w).

Definition set_log (l : list LogLine) (w : World) : World :=
  mkWorld (app_config w) (os_user w) (os_files w) (os_write_ok w) (os_exec w) (os_trace w) l.

(** ** The monad of the program: state over [World], [None] for a run-time
    panic (a nil [config] dereferenced). *)
Definition M (A : Type) : Type := World -> option (A * World).

Definition ret {A} (a : A) : M A := fun w => Some (a, w).

Definition bind {A B} (m : M A) (k : A -> M B) : M B :=
  fun w => match m w with
           | Some (a, w') => k a w'
           | None => None
           end.

Declare Scope go_scope.
Delimit Scope go_scope with go.
Notation "x <- m ;; k" := (bind m (fun x => k))
  (at level 100, m at next level, right associativity) : go_scope.
Notation "m ;;; k" := (bind m (fun _ => k))
  (at level 100, right associativity) : go_scope.
Open Scope go_scope.

(** [app.config], dereferenced: panics on nil. *)
Definition derefConfig : M Config :=
  fun w => match app_config w with
           | Some c => Some (c, w)
           | None => None
           end.

Definition getConfig : M (option Config) := fun w => Some (app_config w, w).

(** [log.Printf format args...] *)
Definition Printf (format : string) (args : list fmtArg) : M unit :=
  fun w => Some (tt, set_log (os_log w ++ [Logged format args]) w).

(** [cmd.Output()] runs the command, waits and returns stdout and the error;
    [cmd.Run()] keeps the error only. *)
Definition Output (c : Invocation) : M (string * option error) :=
  fun w => let r := os_exec w (os_trace w) c in
           Some ((exec_stdout r, exec_err r), set_trace (os_trace w ++ [c]) w).

Definition Run (c : Invocation) : M (option error) :=
  r <- Output c ;; ret (snd r).

Definition isSome {A} (o : option A) : bool :=
  match o with Some _ => true | None => false end.

(** ** ConnectionProbe: [isVPNConnected] ([main.go], lines 291-338) *)

Definition pgrepTunnel : Invocation :=
  Cmd "pgrep" ["-f"; "autossh.*-D.*localhost"].

Definition pgrepAutossh : Invocation :=
  Cmd "pgrep" ["autossh"].

Definition lsofListen (port : Z) : Invocation :=
  Cmd "lsof" ["-nP"; "-iTCP:" +:+ pretty port; "-sTCP:LISTEN"].

(** [len(bytes.TrimSpace(out)) > 0] *)
Definition hasOutput (out : string) : bool :=
  (0 <? String.length (strings.TrimSpace out))%nat.

(** The test of the loop body at line 319, on one line of lsof output. *)
Definition mentionsSSH (ln : string) : bool :=
  let lower := strings.ToLower ln in
  strings.Contains lower "autossh" || strings.Contains lower "ssh".

(** Lines 316-324: the first line after the header that passes the test. *)
Definition sshListener (lines : list string) : option string :=
  if (1 <? length lines)%nat then find mentionsSSH (drop 1 lines) else None.

(** Lines 331-337: the last log line, with the port or 0 for a nil config. *)
Definition reportDisconnected : M bool :=
  cfg <- getConfig ;;
  Printf "VPN disconnected: no autossh process or SSH listener on port %d"
         [AInt (match cfg with Some c => LocalPort c | None => 0 end)] ;;;
  ret false.

Definition isVPNConnected : M bool :=
  r1 <- Output pgrepTunnel ;;
  if negb (isSome (snd r1)) && hasOutput (fst r1) then
    Printf "VPN connected: autossh process detected (with -D)" [] ;;;
    ret true
  else
    err2 <- Run pgrepAutossh ;;
    if negb (isSome err2) then
      Printf "VPN connected: autossh process detected (fallback)" [] ;;;
      ret true
    else
      cfg <- getConfig ;;
      match cfg with
      | Some c =>
          if (0 <? LocalPort c)%Z then
            r3 <- Output (lsofListen (LocalPort c)) ;;
            if negb (isSome (snd r3)) && hasOutput (fst r3) then
              let text := strings.TrimSpace (fst r3) in
              let lines := strings.SplitLines text in
              match sshListener lines with
              | Some ln =>
                  Printf "VPN connected: lsof shows SSH listener: %s"
                         [AStr (strings.TrimSpace ln)] ;;;
                  ret true
              | None =>
                  Printf "lsof reports listener on port %d but not SSH: %q"
                         [AInt (LocalPort c); AStr text] ;;;
                  ret false
              end
            else reportDisconnected
          else reportDisconnected
      | None => reportDisconnected
      end.

(** ** TunnelSupervisor: [disconnectVPN] (lines 379-413) and [connectVPN]
    (lines 340-377) *)

Definition proxyOff (iface : string) : Invocation :=
  Cmd "networksetup" ["-setsocksfirewallproxystate"; iface; "off"].

Definition pkillAutossh : Invocation :=
  Cmd "pkill" ["autossh"].

Definition pkill9Autossh : Invocation :=
  Cmd "pkill" ["-9"; "autossh"].

(** Lines 400-412: the existence check and the SIGKILL escalation. *)
Definition escalateKill : M (option error) :=
  chk <- Run pgrepAutossh ;;
  match chk with
  | None =>
      Printf "autossh processes still present after pkill, issuing SIGKILL" [] ;;;
      err9 <- Run pkill9Autossh ;;
      match err9 with
      | Some e => Printf "SIGKILL attempt failed: %v" [AErr e] ;;; ret None
      | None => ret None
      end
  | Some _ => ret None
  end.

Definition disconnectVPN : M (option error) :=
  cfg <- derefConfig ;;
  perr <- Run (proxyOff (Interface cfg)) ;;
  match perr with
  | Some e => Printf "Warning: failed to disable SOCKS proxy: %v" [AErr e]
  | None => ret tt
  end ;;;
  kerr <- Run pkillAutossh ;;
  match kerr with
  | Some (ExitError status) =>
      if (ExitStatus status =? 1)%Z then ret None
      else Printf "pkill returned error: %v" [AErr (ExitError status)] ;;;
           escalateKill
  | Some e => Printf "pkill failed: %v" [AErr e] ;;; escalateKill
  | None => escalateKill
  end.

(** Lines 357-363: the argument list of the supervisor process. *)
Definition autosshArgs (cfg : Config) (server : string) : list string :=
  ["-f"; "-M"; "0";
   "-o"; "ServerAliveInterval " +:+ pretty (ServerAliveInterval (ServerOptions' cfg));
   "-o"; "ServerAliveCountMax " +:+ pretty (ServerAliveCountMax (ServerOptions' cfg));
   "-D"; "localhost:" +:+ pretty (LocalPort cfg);
   "-N"; server].

Definition spawn (cfg : Config) (server : string) : Invocation :=
  Cmd (AutoSSHPath cfg) (autosshArgs cfg server).

Definition proxyOn (cfg : Config) : Invocation :=
  Cmd "networksetup"
      ["-setsocksfirewallproxy"; Interface cfg; "127.0.0.1"; pretty (LocalPort cfg)].

(** Lines 341-347: the first command of the list with the requested name. *)
Definition findCommand (commandName : string) (cmds : list Command) : option Command :=
  find (fun cmd => String.eqb (Name cmd) commandName) cmds.

Definition connectVPN (commandName : string) : M (option error) :=
  cfg <- derefConfig ;;
  match findCommand commandName (Commands cfg) with
  | None =>
      ret (Some (Errorf "command '%s' not found in configuration" [AStr commandName]))
  | Some targetCommand =>
      disconnectVPN ;;;
      cfg <- derefConfig ;;
      err <- Run (spawn cfg (Server targetCommand)) ;;
      match err with
      | Some e => ret (Some (Errorf "failed to start autossh: %w" [AErr e]))
      | None =>
          perr <- Run (proxyOn cfg) ;;
          match perr with
          | Some e => ret (Some (Errorf "failed to set SOCKS proxy: %w" [AErr e]))
          | None => ret None
          end
      end
  end.

(** ** ConfigStore: [loadConfig] (lines 254-289), [createDummyConfig]
    (lines 502-532) and [reloadConfiguration] (lines 567-582) *)

(** The library functions the loader calls, as an interface:
    [json.Unmarshal(data, &config)] on a zero [Config],
    [json.MarshalIndent] with an empty prefix and a two-space indent, and
    [filepath.Join]. *)
Class GoRuntime : Type := {
  json_Unmarshal : string -> error + Config;
  json_MarshalIndent : Config -> error + string;
  filepath_Join : string -> string -> string
}.

(** [user.Current()] *)
Definition user_Current : M (error + User) :=
  fun w => Some (os_user w, w).

(** [os.ReadFile] *)
Definition ReadFile (path : string) : M (error + string) :=
  fun w => match os_files w !! path with
           | Some data => Some (inr data, w)
           | None => Some (inl (SysError ("open " +:+ path)), w)
           end.

(** [os.WriteFile path data 0644] *)
Definition WriteFile (path data : string) : M (option error) :=
  fun w => if os_write_ok w path
           then Some (None, set_files (<[path := data]> (os_files w)) w)
           else Some (Some (SysError ("open " +:+ path)), w).

Definition setConfig (c : Config) : M unit :=
  fun w => Some (tt, set_config (Some c) w).

Definition with_AutoSSHPath (v : string) (c : Config) : Config :=
  mkConfig v (LocalPort c) (Interface c) (ServerOptions' c) (Commands c).

Definition with_LocalPort (v : Z) (c : Config) : Config :=
  mkConfig (AutoSSHPath c) v (Interface c) (ServerOptions' c) (Commands c).

Definition with_Interface (v : string) (c : Config) : Config :=
  mkConfig (AutoSSHPath c) (LocalPort c) v (ServerOptions' c) (Commands c).

Definition with_ServerOptions (v : ServerOptions) (c : Config) : Config :=
  mkConfig (AutoSSHPath c) (LocalPort c) (Interface c) v (Commands c).

Definition with_Commands (v : list Command) (c : Config) : Config :=
  mkConfig (AutoSSHPath c) (LocalPort c) (Interface c) (ServerOptions' c) v.

Definition with_ServerAliveInterval (v : Z) (c : Config) : Config :=
  with_ServerOptions (mkServerOptions v (ServerAliveCountMax (ServerOptions' c))) c.

Definition with_ServerAliveCountMax (v : Z) (c : Config) : Config :=
  with_ServerOptions (mkServerOptions (ServerAliveInterval (ServerOptions' c)) v) c.

(** Lines 271-286, one conditional assignment after the other. *)
Definition setDefaults (config : Config) : Config :=
  let config :=
    if String.eqb (AutoSSHPath config) EmptyString then with_AutoSSHPath "/opt/homebrew/bin/autossh" config
    else config in
  let config :=
    if (LocalPort config =? 0)%Z then with_LocalPort 1234 config else config in
  let config :=
    if String.eqb (Interface config) EmptyString then with_Interface "Wi-Fi" config else config in
  let config :=
    if (ServerAliveInterval (ServerOptions' config) =? 0)%Z
    then with_ServerAliveInterval 10 config else config in
  let config :=
    if (ServerAliveCountMax (ServerOptions' config) =? 0)%Z
    then with_ServerAliveCountMax 3 config else config in
  config.

Definition loadConfig {rt : GoRuntime} : M (error + Config) :=
  u <- user_Current ;;
  match u with
  | inl err => ret (inl (Errorf "failed to get current user: %w" [AErr err]))
  | inr usr =>
      let configPath := filepath_Join (HomeDir usr) ".vpn.json" in
      d <- ReadFile configPath ;;
      match d with
      | inl err =>
          ret (inl (Errorf "failed to read config file %s: %w" [AStr configPath; AErr err]))
      | inr data =>
          match json_Unmarshal data with
          | inl err => ret (inl (Errorf "failed to parse config file: %w" [AErr err]))
          | inr config => ret (inr (setDefaults config))
          end
      end
  end.

(** Lines 503-518: the template. *)
Definition dummyConfig : Config :=
  {| AutoSSHPath := "/opt/homebrew/bin/autossh";
     LocalPort := 1234;
     Interface := "Wi-Fi";
     ServerOptions' := {| ServerAliveInterval := 10; ServerAliveCountMax := 3 |};
     Commands := [ {| Name := "example";
                      Description := "Example VPN Server";
                      Server := "your-server-name-or-ip" |} ] |}.

Definition createDummyConfig {rt : GoRuntime} (configPath : string) : M (option error) :=
  match json_MarshalIndent dummyConfig with
  | inl err => ret (Some (Errorf "failed to marshal dummy config: %w" [AErr err]))
  | inr data =>
      werr <- WriteFile configPath data ;;
      match werr with
      | Some err => ret (Some (Errorf "failed to write dummy config: %w" [AErr err]))
      | None =>
          Printf "Created dummy configuration at %s" [AStr configPath] ;;;
          ret None
      end
  end.

Definition reloadConfiguration {rt : GoRuntime} : M unit :=
  Printf "Reloading configuration..." [] ;;;
  r <- loadConfig ;;
  match r with
  | inl err => Printf "Error reloading configuration: %v" [AErr err]
  | inr config =>
      setConfig config ;;;
      Printf "Configuration reloaded successfully with %d commands"
             [AInt (Z.of_nat (length (Commands config)))]
  end.

(** ** A model of package [encoding/json] for the [Config] struct

    The scanner follows RFC 8259 as Go's does (white space is space, tab,
    line feed and carriage return; control bytes may not appear raw in a
    string; a surrogate escape without its pair decodes to U+FFFD).  The
    decoder follows the package's rules for struct targets: a key selects the
    field with the same tag, or else the one that matches without regard to
    ASCII case; unknown keys are skipped; [null] leaves a string, an integer
    or a struct as it is and empties a slice; an array replaces the slice; a
    number fits an [int] field only when [strconv.ParseInt] accepts it; a
    value of any other kind is an error.  Input is taken to be valid UTF-8. *)
Module GoJson.

Inductive json : Type :=
| JNull
| JBool (b : bool)
| JNumber (lit : string)
| JString (s : string)
| JArray (elems : list json)
| JObject (members : list (string * json)).

Definition dquote : ascii := "034"%char.
Definition backslash : ascii := "092"%char.
Definition newline : ascii := "010"%char.

Definition isWS (a : ascii) : bool :=
  let n := N_of_ascii a in
  (n =? 32)%N || (n =? 9)%N || (n =? 10)%N || (n =? 13)%N.

Fixpoint skipWS (l : list ascii) : list ascii :=
  match l with
  | a :: l' => if isWS a then skipWS l' else l
  | [] => []
  end.

Definition isDigit (a : ascii) : bool :=
  let n := N_of_ascii a in ((48 <=? n)%N && (n <=? 57)%N)%bool.

Definition hexVal (a : ascii) : option N :=
  let n := N_of_ascii a in
  if ((48 <=? n)%N && (n <=? 57)%N)%bool then Some (n - 48)%N
  else if ((97 <=? n)%N && (n <=? 102)%N)%bool then Some (n - 87)%N
  else if ((65 <=? n)%N && (n <=? 70)%N)%bool then Some (n - 55)%N
  else None.

(** [getu4] on the four digits after a backslash and the letter u. *)
Definition hex4 (a b c d : ascii) : option N :=
  match hexVal a, hexVal b, hexVal c, hexVal d with
  | Some x, Some y, Some z, Some t => Some (((x * 16 + y) * 16 + z) * 16 + t)%N
  | _, _, _, _ => None
  end.

(** [utf8.EncodeRune] *)
Definition encodeRune (r : N) : list ascii :=
  let cont (x : N) := ascii_of_N (128 + x mod 64)%N in
  if (r <? 128)%N then [ascii_of_N r]
  else if (r <? 2048)%N then [ascii_of_N (192 + r / 64)%N; cont r]
  else if (r <? 65536)%N then
    [ascii_of_N (224 + r / 4096)%N; cont (r / 64)%N; cont r]
  else
    [ascii_of_N (240 + r / 262144)%N; cont (r / 4096)%N; cont (r / 64)%N; cont r].

Definition isSurrogate (r : N) : bool := ((55296 <=? r)%N && (r <? 57344)%N)%bool.

(** [utf16.DecodeRune]: the code point of a valid pair. *)
Definition decodePair (r1 r2 : N) : option N :=
  if ((55296 <=? r1)%N && (r1 <? 56320)%N && (56320 <=? r2)%N && (r2 <? 57344)%N)%bool
  then Some ((r1 - 55296) * 1024 + (r2 - 56320) + 65536)%N
  else None.

Definition replacementChar : N := 65533%N.

(** The escape that may follow a surrogate: its value and what comes after. *)
Definition nextU4 (l : list ascii) : option (N * list ascii) :=
  match l with
  | b :: u :: h1 :: h2 :: h3 :: h4 :: rest =>
      if (Ascii.eqb b backslash && Ascii.eqb u "u"%char)%bool
      then match hex4 h1 h2 h3 h4 with
           | Some r => Some (r, rest)
           | None => None
           end
      else None
  | _ => None
  end.

Definition simpleEscape (a : ascii) : option ascii :=
  let n := N_of_ascii a in
  if (n =? 34)%N then Some dquote
  else if (n =? 92)%N then Some backslash
  else if (n =? 47)%N then Some "/"%char
  else if (n =? 98)%N then Some "008"%char
  else if (n =? 102)%N then Some "012"%char
  else if (n =? 110)%N then Some "010"%char
  else if (n =? 114)%N then Some "013"%char
  else if (n =? 116)%N then Some "009"%char
  else None.

(** A string literal after its opening quote: the bytes it denotes and the
    input after the closing quote.  [fuel] bounds the bytes read. *)
Fixpoint scanString (fuel : nat) (l : list ascii) : option (list ascii * list ascii) :=
  match fuel with
  | O => None
  | S fuel' =>
      match l with
      | [] => None
      | a :: rest =>
          if Ascii.eqb a dquote then Some ([], rest)
          else if Ascii.eqb a backslash then
            match rest with
            | [] => None
            | e :: rest1 =>
                if Ascii.eqb e "u"%char then
                  match rest1 with
                  | h1 :: h2 :: h3 :: h4 :: rest2 =>
                      match hex4 h1 h2 h3 h4 with
                      | None => None
                      | Some r =>
                          let '(rune, rest3) :=
                            if isSurrogate r then
                              match nextU4 rest2 with
                              | Some (r2, rest') =>
                                  match decodePair r r2 with
                                  | Some dec => (dec, rest')
                                  | None => (replacementChar, rest2)
                                  end
                              | None => (replacementChar, rest2)
                              end
                            else (r, rest2) in
                          match scanString fuel' rest3 with
                          | Some (s, out) => Some ((encodeRune rune ++ s)%list, out)
                          | None => None
                          end
                      end
                  | _ => None
                  end
                else
                  match simpleEscape e with
                  | None => None
                  | Some c =>
                      match scanString fuel' rest1 with
                      | Some (s, out) => Some (c :: s, out)
                      | None => None
                      end
                  end
            end
          else if (N_of_ascii a <? 32)%N then None
          else
            match scanString fuel' rest with
            | Some (s, out) => Some (a :: s, out)
            | None => None
            end
      end
  end.

Fixpoint spanDigits (l : list ascii) : list ascii * list ascii :=
  match l with
  | a :: l' =>
      if isDigit a then let '(ds, rest) := spanDigits l' in (a :: ds, rest)
      else ([], l)
  | [] => ([], [])
  end.

(** A number literal: minus? (0 | 1-9 digits) (. digits+)? ((e|E) sign? digits+)? *)
Definition scanNumber (l : list ascii) : option (list ascii * list ascii) :=
  let '(sign, l1) :=
    match l with
    | a :: r => if Ascii.eqb a "-"%char then ([a], r) else ([], l)
    | [] => ([], l)
    end in
  match l1 with
  | [] => None
  | d :: r =>
      if negb (isDigit d) then None
      else
        let '(ip, l2) :=
          if Ascii.eqb d "0"%char then ([d], r)
          else let '(ds, rest) := spanDigits r in (d :: ds, rest) in
        let frac :=
          match l2 with
          | p :: r2 =>
              if Ascii.eqb p "."%char then
                match spanDigits r2 with
                | ([], _) => None
                | (ds, rest) => Some (p :: ds, rest)
                end
              else Some ([], l2)
          | [] => Some ([], l2)
          end in
        match frac with
        | None => None
        | Some (fp, l3) =>
            let expo :=
              match l3 with
              | e :: r3 =>
                  if (Ascii.eqb e "e"%char || Ascii.eqb e "E"%char)%bool then
                    let '(es, r4) :=
                      match r3 with
                      | s :: r' =>
                          if (Ascii.eqb s "+"%char || Ascii.eqb s "-"%char)%bool
                          then ([s], r') else ([], r3)
                      | [] => ([], r3)
                      end in
                    match spanDigits r4 with
                    | ([], _) => None
                    | (ds, rest) => Some ((e :: es ++ ds)%list, rest)
                    end
                  else Some ([], l3)
              | [] => Some ([], l3)
              end in
            match expo with
            | None => None
            | Some (ep, l4) => Some ((sign ++ ip ++ fp ++ ep)%list, l4)
            end
        end
  end.

(** The package refuses input nested deeper than this. *)
Definition maxNestingDepth : N := 10000%N.

(** If [l] starts with [word], what follows it. *)
Fixpoint expect (word l : list ascii) : option (list ascii) :=
  match word, l with
  | [], _ => Some l
  | c :: word', a :: l' => if Ascii.eqb a c then expect word' l' else None
  | _ :: _, [] => None
  end.

(** One value, the elements of an array after its bracket, the members of an
    object after its brace.  Every call consumes input, so a fuel of twice
    the input length is never exhausted. *)
Fixpoint parseValue (fuel : nat) (depth : N) (l : list ascii) : option (json * list ascii) :=
  match fuel with
  | O => None
  | S fuel' =>
      match skipWS l with
      | [] => None
      | a :: rest =>
          if Ascii.eqb a dquote then
            match scanString (length rest) rest with
            | Some (s, out) => Some (JString (string_of_list_ascii s), out)
            | None => None
            end
          else if Ascii.eqb a "["%char then
            if (maxNestingDepth <? depth + 1)%N then None
            else match skipWS rest with
                 | c :: rest' =>
                     if Ascii.eqb c "]"%char then Some (JArray [], rest')
                     else match parseElems fuel' (depth + 1)%N rest with
                          | Some (vs, out) => Some (JArray vs, out)
                          | None => None
                          end
                 | [] => None
                 end
          else if Ascii.eqb a "{"%char then
            if (maxNestingDepth <? depth + 1)%N then None
            else match skipWS rest with
                 | c :: rest' =>
                     if Ascii.eqb c "}"%char then Some (JObject [], rest')
                     else match parseMembers fuel' (depth + 1)%N rest with
                          | Some (ms, out) => Some (JObject ms, out)
                          | None => None
                          end
                 | [] => None
                 end
          else if Ascii.eqb a "t"%char then
            match expect (list_ascii_of_string "rue") rest with
            | Some out => Some (JBool true, out)
            | None => None
            end
          else if Ascii.eqb a "f"%char then
            match expect (list_ascii_of_string "alse") rest with
            | Some out => Some (JBool false, out)
            | None => None
            end
          else if Ascii.eqb a "n"%char then
            match expect (list_ascii_of_string "ull") rest with
            | Some out => Some (JNull, out)
            | None => None
            end
          else
            match scanNumber (a :: rest) with
            | Some (lit, out) => Some (JNumber (string_of_list_ascii lit), out)
            | None => None
            end
      end
  end
with parseElems (fuel : nat) (depth : N) (l : list ascii) : option (list json * list ascii) :=
  match fuel with
  | O => None
  | S fuel' =>
      match parseValue fuel' depth l with
      | None => None
      | Some (v, rest) =>
          match skipWS rest with
          | c :: rest' =>
              if Ascii.eqb c ","%char then
                match parseElems fuel' depth rest' with
                | Some (vs, out) => Some (v :: vs, out)
                | None => None
                end
              else if Ascii.eqb c "]"%char then Some ([v], rest')
              else None
          | [] => None
          end
      end
  end
with parseMembers (fuel : nat) (depth : N) (l : list ascii)
  : option (list (string * json) * list ascii) :=
  match fuel with
  | O => None
  | S fuel' =>
      match skipWS l with
      | q :: rest =>
          if negb (Ascii.eqb q dquote) then None
          else
            match scanString (length rest) rest with
            | None => None
            | Some (k, rest1) =>
                match skipWS rest1 with
                | c :: rest2 =>
                    if negb (Ascii.eqb c ":"%char) then None
                    else
                      match parseValue fuel' depth rest2 with
                      | None => None
                      | Some (v, rest3) =>
                          let m := (string_of_list_ascii k, v) in
                          match skipWS rest3 with
                          | d :: rest4 =>
                              if Ascii.eqb d ","%char then
                                match parseMembers fuel' depth rest4 with
                                | Some (ms, out) => Some (m :: ms, out)
                                | None => None
                                end
                              else if Ascii.eqb d "}"%char then Some ([m], rest4)
                              else None
                          | [] => None
                          end
                      end
                | [] => None
                end
            end
      | [] => None
      end
  end.

(** A whole document: one value and nothing but white space after it. *)
Definition parse (data : string) : option json :=
  let l := list_ascii_of_string data in
  match parseValue (2 * length l + 2) 0%N l with
  | Some (v, rest) =>
      match skipWS rest with
      | [] => Some v
      | _ :: _ => None
      end
  | None => None
  end.

(** [strconv.ParseInt(lit, 10, 64)] on a number literal. *)
Definition parseInt (lit : string) : option Z :=
  let l := list_ascii_of_string lit in
  let '(neg, ds) :=
    match l with
    | a :: r => if Ascii.eqb a "-"%char then (true, r) else (false, l)
    | [] => (false, l)
    end in
  if (forallb isDigit ds && (0 <? length ds)%nat)%bool then
    let n := fold_left (fun acc d => acc * 10 + Z.of_N (N_of_ascii d - 48))%Z ds 0%Z in
    let v := if neg then (- n)%Z else n in
    if ((int_min <=? v)%Z && (v <=? int_max)%Z)%bool then Some v else None
  else None.

Definition decodeString (old : string) (v : json) : option string :=
  match v with
  | JString s => Some s
  | JNull => Some old
  | _ => None
  end.

Definition decodeInt (old : Z) (v : json) : option Z :=
  match v with
  | JNumber lit => parseInt lit
  | JNull => Some old
  | _ => None
  end.

(** The field a key selects among the tags [names]: the exact one, or else
    the first that is equal up to ASCII case. *)
Definition matchField (names : list string) (key : string) : option string :=
  match find (String.eqb key) names with
  | Some n => Some n
  | None => find (fun n => String.eqb (strings.ToLower n) (strings.ToLower key)) names
  end.

(** Decoding an object into a struct value: the members in order, each into
    the current value. *)
Definition decodeObject {T} (field : string -> json -> T -> option T)
    (names : list string) (old : T) (v : json) : option T :=
  match v with
  | JObject ms =>
      fold_left (fun acc m =>
                   match acc with
                   | Some t =>
                       match matchField names (fst m) with
                       | Some n => field n (snd m) t
                       | None => Some t
                       end
                   | None => None
                   end) ms (Some old)
  | JNull => Some old
  | _ => None
  end.

Definition commandField (n : string) (v : json) (c : Command) : option Command :=
  if String.eqb n "name" then
    option_map (fun s => mkCommand s (Description c) (Server c)) (decodeString (Name c) v)
  else if String.eqb n "description" then
    option_map (fun s => mkCommand (Name c) s (Server c)) (decodeString (Description c) v)
  else
    option_map (fun s => mkCommand (Name c) (Description c) s) (decodeString (Server c) v).

Definition decodeCommand : Command -> json -> option Command :=
  decodeObject commandField ["name"; "description"; "server"].

Definition optionsField (n : string) (v : json) (o : ServerOptions) : option ServerOptions :=
  if String.eqb n "server_alive_interval" then
    option_map (fun i => mkServerOptions i (ServerAliveCountMax o))
               (decodeInt (ServerAliveInterval o) v)
  else
    option_map (fun i => mkServerOptions (ServerAliveInterval o) i)
               (decodeInt (ServerAliveCountMax o) v).

Definition decodeServerOptions : ServerOptions -> json -> option ServerOptions :=
  decodeObject optionsField ["server_alive_interval"; "server_alive_count_max"].

Definition zeroCommand : Command := mkCommand EmptyString EmptyString EmptyString.

Fixpoint decodeCommands (elems : list json) : option (list Command) :=
  match elems with
  | [] => Some []
  | e :: elems' =>
      match decodeCommand zeroCommand e, decodeCommands elems' with
      | Some c, Some cs => Some (c :: cs)
      | _, _ => None
      end
  end.

Definition configField (n : string) (v : json) (c : Config) : option Config :=
  if String.eqb n "autossh_path" then
    option_map (fun s => with_AutoSSHPath s c) (decodeString (AutoSSHPath c) v)
  else if String.eqb n "local_port" then
    option_map (fun i => with_LocalPort i c) (decodeInt (LocalPort c) v)
  else if String.eqb n "interface" then
    option_map (fun s => with_Interface s c) (decodeString (Interface c) v)
  else if String.eqb n "server_options" then
    option_map (fun o => with_ServerOptions o c) (decodeServerOptions (ServerOptions' c) v)
  else
    match v with
    | JArray elems => option_map (fun cs => with_Commands cs c) (decodeCommands elems)
    | JNull => Some (with_Commands [] c)
    | _ => None
    end.

Definition decodeConfig : Config -> json -> option Config :=
  decodeObject configField
    ["autossh_path"; "local_port"; "interface"; "server_options"; "commands"].

Definition zeroConfig : Config :=
  mkConfig EmptyString 0 EmptyString (mkServerOptions 0 0) [].

(** [json.Unmarshal(data, &config)] with [config] the zero value. *)
Definition Unmarshal (data : string) : error + Config :=
  match parse data with
  | None => inl (SysError "json: invalid input")
  | Some v =>
      match decodeConfig zeroConfig v with
      | Some c => inr c
      | None => inl (SysError "json: cannot unmarshal value into Go struct field")
      end
  end.

(** The encoder: [json.MarshalIndent(v, prefix, indent)] with an empty prefix
    and two spaces, as Go 1.22 and later print it.  HTML-sensitive and
    control bytes are escaped; all other bytes are copied.  A list without
    elements is printed as an empty slice. *)
Definition hexDigit (n : N) : ascii :=
  if (n <? 10)%N then ascii_of_N (48 + n)%N else ascii_of_N (87 + n)%N.

Definition escapeByte (a : ascii) : list ascii :=
  let n := N_of_ascii a in
  if (n =? 34)%N then [backslash; dquote]
  else if (n =? 92)%N then [backslash; backslash]
  else if (n =? 8)%N then [backslash; "b"%char]
  else if (n =? 12)%N then [backslash; "f"%char]
  else if (n =? 10)%N then [backslash; "n"%char]
  else if (n =? 13)%N then [backslash; "r"%char]
  else if (n =? 9)%N then [backslash; "t"%char]
  else if ((n <? 32)%N || (n =? 60)%N || (n =? 62)%N || (n =? 38)%N)%bool then
    [backslash; "u"%char; "0"%char; "0"%char; hexDigit (n / 16)%N; hexDigit (n mod 16)%N]
  else [a].

Definition quote (s : string) : string :=
  string_of_list_ascii
    (dquote :: (flat_map escapeByte (list_ascii_of_string s) ++ [dquote])%list).

Definition nl : string := String newline EmptyString.

(** A line [indent "key": value]. *)
Definition member (indent key value : string) : string :=
  indent +:+ quote key +:+ ": " +:+ value.

Fixpoint joinWith (sep : string) (l : list string) : string :=
  match l with
  | [] => EmptyString
  | [x] => x
  | x :: l' => x +:+ sep +:+ joinWith sep l'
  end.

Definition marshalCommand (c : Command) : string :=
  "    {" +:+ nl +:+
  joinWith ("," +:+ nl)
    [ member "      " "name" (quote (Name c));
      member "      " "description" (quote (Description c));
      member "      " "server" (quote (Server c)) ] +:+ nl +:+
  "    }".

Definition marshalCommands (cs : list Command) : string :=
  match cs with
  | [] => "[]"
  | _ :: _ => "[" +:+ nl +:+ joinWith ("," +:+ nl) (map marshalCommand cs) +:+ nl +:+ "  ]"
  end.

Definition marshalServerOptions (o : ServerOptions) : string :=
  "{" +:+ nl +:+
  joinWith ("," +:+ nl)
    [ member "    " "server_alive_interval" (pretty (ServerAliveInterval o));
      member "    " "server_alive_count_max" (pretty (ServerAliveCountMax o)) ] +:+ nl +:+
  "  }".

Definition MarshalIndent (c : Config) : string :=
  "{" +:+ nl +:+
  joinWith ("," +:+ nl)
    [ member "  " "autossh_path" (quote (AutoSSHPath c));
      member "  " "local_port" (pretty (LocalPort c));
      member "  " "interface" (quote (Interface c));
      member "  " "server_options" (marshalServerOptions (ServerOptions' c));
      member "  " "commands" (marshalCommands (Commands c)) ] +:+ nl +:+
  "}".

(** [filepath.Join] of a directory and a file name, both already clean. *)
Definition Join (dir name : string) : string :=
  if String.eqb dir EmptyString then name
  else if String.eqb dir "/" then dir +:+ name
  else dir +:+ "/" +:+ name.

Definition runtime : GoRuntime :=
  {| json_Unmarshal := Unmarshal;
     json_MarshalIndent := fun c => inr (MarshalIndent c);
     filepath_Join := Join |}.

End GoJson.

(** ** Worlds used to evaluate the program on concrete inputs *)

(** A session of user [alice] with the given files and configuration, in
    which every command is answered by [answer] whatever ran before. *)
Definition session (cfg : option Config) (files : gmap string string)
    (answer : Invocation -> ExecResult) : World :=
  {| app_config := cfg;
     os_user := inr (mkUser "/Users/alice");
     os_files := files;
     os_write_ok := fun _ => true;
     os_exec := fun _ c => answer c;
     os_trace := [];
     os_log := [] |}.

Definition ok : ExecResult := mkExecResult EmptyString None.
Definition exitWith (code : Z) : ExecResult :=
  mkExecResult EmptyString (Some (ExitError (Exited code))).

Definition isProgram (name : string) (c : Invocation) : bool :=
  String.eqb (cmd_path c) name.

Definition homeConfigPath : string := "/Users/alice/.vpn.json".


(** The configuration of the connect scenario: port 1234, interface Wi-Fi,
    one profile [office]. *)
Definition officeConfig : Config :=
  {| AutoSSHPath := "/opt/homebrew/bin/autossh";
     LocalPort := 1234;
     Interface := "Wi-Fi";
     ServerOptions' := {| ServerAliveInterval := 10; ServerAliveCountMax := 3 |};
     Commands := [ mkCommand "office" "Office" "office.example.com" ] |}.

(** No tunnel is running: pkill and pgrep find nothing, all else succeeds. *)
Definition quietWorld : World :=
  session (Some officeConfig) ∅
          (fun c => if isProgram "pkill" c then exitWith 1
                    else if isProgram "pgrep" c then exitWith 1 else ok).

(** As [quietWorld], but networksetup fails. *)
Definition proxyDownWorld : World :=
  session (Some officeConfig) ∅
          (fun c => if isProgram "networksetup" c then exitWith 1
                    else if isProgram "pkill" c then exitWith 1
                    else if isProgram "pgrep" c then exitWith 1 else ok).

(** As [quietWorld], but autossh cannot start. *)
Definition spawnFailsWorld : World :=
  session (Some officeConfig) ∅
          (fun c => if isProgram "/opt/homebrew/bin/autossh" c then exitWith 255
                    else if isProgram "pkill" c then exitWith 1
                    else if isProgram "pgrep" c then exitWith 1 else ok).

(** The application before any configuration is set; nothing is running. *)
Definition noConfigWorld : World :=
  session None ∅ (fun _ => exitWith 1).

(** What lsof prints when nginx, run by user sshadmin, listens on 1234. *)
Definition foreignListing : string :=
  strings.unlines
    [ "COMMAND PID     USER   FD   TYPE DEVICE SIZE/OFF NODE NAME";
      "nginx   812 sshadmin    6u  IPv4 0x1234      0t0  TCP 127.0.0.1:1234 (LISTEN)" ].

(** No autossh process exists and lsof answers with [foreignListing]. *)
Definition foreignListenerWorld : World :=
  session (Some officeConfig) ∅
          (fun c => if isProgram "lsof" c then mkExecResult foreignListing None
                    else exitWith 1).

(** Configuration files for the loader. *)
Definition emptyOptionsFile : string :=
  "{" +:+ GoJson.quote "server_options" +:+ ": {}}".

Definition bigPortFile : string :=
  "{" +:+ GoJson.quote "local_port" +:+ ": 70000}".

Definition truncatedFile : string := "{".

Definition worldWithFile (data : string) : World :=
  session (Some officeConfig) {[ homeConfigPath := data ]} (fun _ => ok).

Definition freshWorld : World :=
  session (Some officeConfig) ∅ (fun _ => ok).

(** What [loadConfig] returns for [bigPortFile]. *)
Definition bigPortConfig : Config :=
  {| AutoSSHPath := "/opt/homebrew/bin/autossh";
     LocalPort := 70000;
     Interface := "Wi-Fi";
     ServerOptions' := {| ServerAliveInterval := 10; ServerAliveCountMax := 3 |};
     Commands := [] |}.

(** The error of [loadConfig] on [truncatedFile]. *)
Definition parseFailure : error :=
  Errorf "failed to parse config file: %w" [AErr (SysError "json: invalid input")].

(** ** Vocabulary of the statements *)

(** The kill command reported that nothing matched: exit status 1. *)
Definition noProcessFound (r : option error) : bool :=
  match r with
  | Some (ExitError ws) => (ExitStatus ws =? 1)%Z
  | _ => false
  end.

(** The log line of line 383. *)
Definition proxyWarning (e : error) : LogLine :=
  Logged "Warning: failed to disable SOCKS proxy: %v" [AErr e].

(** The log line of line 394 or 396 for a kill that failed with [e]. *)
Definition killFailureLine (e : error) : LogLine :=
  match e with
  | ExitError _ => Logged "pkill returned error: %v" [AErr e]
  | _ => Logged "pkill failed: %v" [AErr e]
  end.

(** The COMMAND column of a line of lsof output: its first field. *)
Definition commandColumn (ln : string) : string :=
  hd EmptyString (strings.Fields ln).

(** A process of the ssh family, by its name. *)
Definition sshFamily (name : string) : bool :=
  strings.Contains (strings.ToLower name) "ssh".

Ltac unfold_go :=
  unfold bind, Run, Output, Printf, ret, derefConfig, getConfig in *.

Ltac break_match :=
  match goal with
  | |- context [match ?x with _ => _ end] => destruct x eqn:?
  end.

(** ** Start-up: [main], lines 46-61, up to the call of [systray.Run] *)

(** Lines 54-59: the configuration used when none can be loaded. *)
Definition minimalConfig : Config :=
  {| AutoSSHPath := "/opt/homebrew/bin/autossh";
     LocalPort := 1234;
     Interface := "Wi-Fi";
     ServerOptions' := {| ServerAliveInterval := 0; ServerAliveCountMax := 0 |};
     Commands := [] |}.

Definition mainSetup {rt : GoRuntime} : M unit :=
  r <- loadConfig ;;
  match r with
  | inl err =>
      Printf "Warning: Could not load config: %v" [AErr err] ;;;
      setConfig minimalConfig
  | inr config => setConfig config
  end.

(** ** The editor helper: [editConfiguration], lines 416-499 *)

(** What the helper asks of the process environment: an environment
    variable, whether a program is found on the PATH ([exec.LookPath]
    returning no error), the path of the running executable
    ([os.Executable]) and [filepath.Dir]. *)
Class Host : Type := {
  os_Getenv : string -> string;
  exec_LookPath : string -> bool;
  os_Executable : error + string;
  filepath_Dir : string -> string
}.

(** [os.Stat] followed by [os.IsNotExist]: a path without an entry in
    [os_files] does not exist. *)
Definition Stat_IsNotExist (path : string) : M bool :=
  fun w => Some (negb (isSome (os_files w !! path)), w).

(** [cmd.Start()]: the command is launched and not waited for, so an exit
    status is never reported; any other error is a failure to start. *)
Definition Start (c : Invocation) : M (option error) :=
  r <- Output c ;;
  ret (match snd r with
       | Some (ExitError _) => None
       | e => e
       end).

(** The goroutine a call leaves behind; it is named, not run. *)
Inductive Goroutine : Type :=
| ReloadAfterExit (cmd : Invocation)
| MonitorConfigFile (configPath : string).

(** Lines 441-447. *)
Definition editors : list string := ["code"; "subl"; "atom"; "nano"; "vim"].

Definition inQuotes (s : string) : string :=
  String "034"%char (s +:+ String "034"%char EmptyString).

Definition isTerminalEditor (ed : string) : bool :=
  String.eqb ed "nano" || String.eqb ed "vim".

(** Lines 460-476: from the editor found (empty for none), the name that
    is logged and the command that opens the file. *)
Definition editorCommand (foundEditor configPath : string) : string * Invocation :=
  if String.eqb foundEditor EmptyString then
    ("open", Cmd "open" ["-e"; configPath])
  else if String.eqb foundEditor "open" then
    (foundEditor, Cmd foundEditor ["-e"; configPath])
  else if isTerminalEditor foundEditor then
    (foundEditor,
     Cmd "osascript"
         ["-e"; "tell application " +:+ inQuotes "Terminal" +:+ " to do script "
                +:+ inQuotes (foundEditor +:+ " " +:+ configPath)])
  else
    (foundEditor, Cmd foundEditor [configPath]).

Definition editConfiguration {rt : GoRuntime} {host : Host}
  : M (option error * option Goroutine) :=
  u <- user_Current ;;
  match u with
  | inl err => ret (Some (Errorf "failed to get current user: %w" [AErr err]), None)
  | inr usr =>
      let configPath := filepath_Join (HomeDir usr) ".vpn.json" in
      missing <- Stat_IsNotExist configPath ;;
      cerr <- (if missing then
                 Printf "Configuration file doesn't exist, creating dummy configuration..." [] ;;;
                 createDummyConfig configPath
               else ret None) ;;
      match cerr with
      | Some err =>
          ret (Some (Errorf "failed to create dummy configuration: %w" [AErr err]), None)
      | None =>
          let editor := os_Getenv "EDITOR" in
          let editor := if String.eqb editor EmptyString then "nano" else editor in
          let found :=
            match find exec_LookPath editors with
            | Some ed => ed
            | None => EmptyString
            end in
          let '(foundEditor, cmd) := editorCommand found configPath in
          Printf "Opening configuration file with %s..." [AStr foundEditor] ;;;
          serr <- Start cmd ;;
          match serr with
          | Some err => ret (Some (Errorf "failed to open editor: %w" [AErr err]), None)
          | None =>
              ret (None,
                   Some (if isTerminalEditor foundEditor then ReloadAfterExit cmd
                         else MonitorConfigFile configPath))
          end
      end
  end.

(** The editor that [editConfiguration] settles on: the first of [editors]
    found on the PATH, or the empty string. *)
Definition foundEditor {host : Host} : string :=
  match find exec_LookPath editors with
  | Some ed => ed
  | None => EmptyString
  end.

(** What [cmd.Start] reports for the outcome [r] of a command. *)
Definition startError (r : option error) : option error :=
  match r with
  | Some (ExitError _) => None
  | e => e
  end.

(** ** The tray: [onReady], [onExit], [buildMenu] and [updateIcon]
    (lines 66-252)

    The systray library is a state of its own: tooltip, title, icon and the
    menu, whose items can be enabled and disabled.  A goroutine that waits on
    the [ClickedCh] of an item is recorded with the item as its listener; the
    body of its loop is a handler below, run for one click at a time. *)

Record MenuItem : Type := mkMenuItem {
  item_title : string;
  item_tooltip : string;
  item_disabled : bool
}.

Inductive Listener : Type :=
| ConnectTo (commandName : string)
| DisconnectNow
| EditConfig
| QuitApp.

Inductive MenuEntry : Type :=
| Item (it : MenuItem) (listener : Listener)
| Separator.

(** [disconnectItem] is the field of [VPNApp]: the position of the item in
    the menu, [None] for nil. *)
Record Tray : Type := mkTray {
  tray_world : World;
  tray_tooltip : string;
  tray_title : string;
  tray_icon : option string;
  tray_menu : list MenuEntry;
  disconnectItem : option nat
}.

Definition set_world (w : World) (t : Tray) : Tray :=
  mkTray w (tray_tooltip t) (tray_title t) (tray_icon t) (tray_menu t) (disconnectItem t).

Definition set_menu (m : list MenuEntry) (t : Tray) : Tray :=
  mkTray (tray_world t) (tray_tooltip t) (tray_title t) (tray_icon t) m (disconnectItem t).

Definition T (A : Type) : Type := Tray -> option (A * Tray).

Definition tret {A} (a : A) : T A := fun t => Some (a, t).

Definition tbind {A B} (m : T A) (k : A -> T B) : T B :=
  fun t => match m t with
           | Some (a, t') => k a t'
           | None => None
           end.

(** A computation on the world, run inside the tray. *)
Definition liftW {A} (m : M A) : T A :=
  fun t => match m (tray_world t) with
           | Some (a, w') => Some (a, set_world w' t)
           | None => None
           end.

Declare Scope tray_scope.
Delimit Scope tray_scope with tray.
Notation "x <- m ;; k" := (tbind m (fun x => k))
  (at level 100, m at next level, right associativity) : tray_scope.
Notation "m ;;; k" := (tbind m (fun _ => k))
  (at level 100, right associativity) : tray_scope.

Definition SetTooltip (s : string) : T unit :=
  fun t => Some (tt, mkTray (tray_world t) s (tray_title t) (tray_icon t)
                            (tray_menu t) (disconnectItem t)).

Definition SetTitle (s : string) : T unit :=
  fun t => Some (tt, mkTray (tray_world t) (tray_tooltip t) s (tray_icon t)
                            (tray_menu t) (disconnectItem t)).

Definition SetIcon (iconBytes : string) : T unit :=
  fun t => Some (tt, mkTray (tray_world t) (tray_tooltip t) (tray_title t) (Some iconBytes)
                            (tray_menu t) (disconnectItem t)).

(** [systray.AddMenuItem]: a new enabled item at the end of the menu; its
    position is returned. *)
Definition AddMenuItem (title tooltip : string) (listener : Listener) : T nat :=
  fun t => Some (length (tray_menu t),
                 set_menu (tray_menu t ++ [Item (mkMenuItem title tooltip false) listener]) t).

Definition AddSeparator : T unit :=
  fun t => Some (tt, set_menu (tray_menu t ++ [Separator]) t).

Definition setDisabled (d : bool) (e : MenuEntry) : MenuEntry :=
  match e with
  | Item it l => Item (mkMenuItem (item_title it) (item_tooltip it) d) l
  | Separator => Separator
  end.

(** [item.Disable()] and [item.Enable()] on the item at a position. *)
Definition Disable (i : nat) : T unit :=
  fun t => Some (tt, set_menu (alter (setDisabled true) i (tray_menu t)) t).

Definition Enable (i : nat) : T unit :=
  fun t => Some (tt, set_menu (alter (setDisabled false) i (tray_menu t)) t).

Definition setDisconnectItem (i : nat) : T unit :=
  fun t => Some (tt, mkTray (tray_world t) (tray_tooltip t) (tray_title t) (tray_icon t)
                            (tray_menu t) (Some i)).

(** [app.disconnectItem], dereferenced: panics on nil. *)
Definition derefDisconnectItem : T nat :=
  fun t => match disconnectItem t with
           | Some i => Some (i, t)
           | None => None
           end.

Definition getDisconnectItem : T (option nat) :=
  fun t => Some (disconnectItem t, t).

Definition globeAmericas : string := "🌎".
Definition globeMeridians : string := "🌐".

Open Scope tray_scope.

(** Lines 194-231: the loop over the candidate directories.  Every path
    through the body of a non-empty candidate sets [iconSet] and breaks. *)
Fixpoint tryResources {rt : GoRuntime} (connected : bool) (candidates : list string)
  : T bool :=
  match candidates with
  | [] => tret false
  | rdir :: rest =>
      if String.eqb rdir EmptyString then tryResources connected rest
      else
        let iconPath :=
          filepath_Join rdir (if connected then "connected.png" else "disconnected.png") in
        let tooltip :=
          if connected then "SOCKS VPN Menu - Connected"
          else "SOCKS VPN Menu - Disconnected" in
        icon <- liftW (ReadFile iconPath) ;;
        match icon with
        | inr iconBytes =>
            SetIcon iconBytes ;;; SetTitle EmptyString ;;; SetTooltip tooltip ;;; tret true
        | inl _ =>
            SetTitle (if connected then globeAmericas else globeMeridians) ;;;
            SetTooltip tooltip ;;; tret true
        end
  end.

Definition updateIcon {rt : GoRuntime} {host : Host} : T unit :=
  connected <- liftW isVPNConnected ;;
  u <- liftW user_Current ;;
  match u with
  | inl _ => fun _ => None
  | inr usr =>
      let resourcesDir := filepath_Join (HomeDir usr) EmptyString in
      let baseDir :=
        match os_Executable with
        | inr exePath => filepath_Dir exePath
        | inl _ => EmptyString
        end in
      let resourcesCandidates :=
        [ filepath_Join baseDir "../Resources";
          filepath_Join baseDir "Resources";
          filepath_Join "./Resources" EmptyString;
          resourcesDir ] in
      iconSet <- tryResources connected resourcesCandidates ;;
      (if negb iconSet then
         if connected then
           SetTitle globeAmericas ;;; SetTooltip "SOCKS VPN Menu - Connected"
         else
           SetTitle globeMeridians ;;; SetTooltip "SOCKS VPN Menu - Disconnected"
       else tret tt) ;;;
      item <- getDisconnectItem ;;
      match item with
      | Some i => if connected then Enable i else Disable i
      | None => tret tt
      end
  end.

(** Lines 90-105: one item per command, with the goroutine that connects to
    the command of that name. *)
Fixpoint addCommandItems (cmds : list Command) : T unit :=
  match cmds with
  | [] => tret tt
  | cmd :: rest =>
      AddMenuItem (Description cmd) ("Connect to " +:+ Server cmd) (ConnectTo (Name cmd)) ;;;
      addCommandItems rest
  end.

Definition buildMenu : T unit :=
  cfg <- liftW derefConfig ;;
  addCommandItems (Commands cfg) ;;;
  cfg <- liftW derefConfig ;;
  (if (0 <? length (Commands cfg))%nat then AddSeparator else tret tt) ;;;
  i <- AddMenuItem "Disconnect" "Disconnect from VPN" DisconnectNow ;;
  setDisconnectItem i ;;;
  connected <- liftW isVPNConnected ;;
  (if negb connected then Disable i else tret tt) ;;;
  AddSeparator ;;;
  AddMenuItem "⚙️ Edit Configuration" "Edit VPN configuration file" EditConfig ;;;
  AddSeparator ;;;
  AddMenuItem "Quit" "Quit the application" QuitApp ;;;
  tret tt.

(** [onReady] without the ticker goroutine it starts, which calls
    [updateIcon] every five seconds. *)
Definition onReady {rt : GoRuntime} {host : Host} : T unit :=
  SetTooltip "SOCKS VPN Menu" ;;;
  buildMenu ;;;
  updateIcon.

Definition onExit : T unit :=
  liftW disconnectVPN ;;; tret tt.

Close Scope tray_scope.

(** Lines 133-138: the wait for autossh to exit, with [n] polls left; the
    pause between two polls does nothing to the world. *)
Fixpoint waitForExit (n : nat) : M unit :=
  match n with
  | O => ret tt
  | S n' =>
      connected <- isVPNConnected ;;
      if negb connected then ret tt else waitForExit n'
  end.

Open Scope tray_scope.

(** Lines 93-103: the body of the loop of a connect item, for one click. *)
Definition onConnectClicked {rt : GoRuntime} {host : Host} (commandName : string) : T unit :=
  err <- liftW (connectVPN commandName) ;;
  match err with
  | Some e => liftW (Printf "Error connecting to %s: %v" [AStr commandName; AErr e])
  | None =>
      liftW (Printf "Connected to %s" [AStr commandName]) ;;;
      updateIcon
  end.

(** Lines 117-143: the body of the loop of the Disconnect item. *)
Definition onDisconnectClicked {rt : GoRuntime} {host : Host} : T unit :=
  i <- derefDisconnectItem ;;
  Disable i ;;;
  err <- liftW disconnectVPN ;;
  match err with
  | Some e =>
      liftW (Printf "Error disconnecting: %v" [AErr e]) ;;;
      i <- derefDisconnectItem ;;
      Enable i
  | None =>
      liftW (waitForExit 20) ;;;
      liftW (Printf "Disconnected (or timed out waiting for process to exit)" []) ;;;
      updateIcon
  end.

(** Lines 151-157: the body of the loop of the Edit item. *)
Definition onEditClicked {rt : GoRuntime} {host : Host} : T unit :=
  r <- liftW editConfiguration ;;
  match fst r with
  | Some e => liftW (Printf "Error editing configuration: %v" [AErr e])
  | None => tret tt
  end.

Close Scope tray_scope.

(** ** Vocabulary for the tray *)

Definition statusTooltip (connected : bool) : string :=
  if connected then "SOCKS VPN Menu - Connected" else "SOCKS VPN Menu - Disconnected".

Definition statusGlyph (connected : bool) : string :=
  if connected then globeAmericas else globeMeridians.

Definition statusImage (connected : bool) : string :=
  if connected then "connected.png" else "disconnected.png".

#[global] Instance Invocation_eq_dec : EqDecision Invocation.
Proof. solve_decision. Defined.

(** The number of probes in a run of commands: each probe starts with the
    pgrep for the tunnel signature, which nothing else runs. *)
Definition probesIn (run : list Invocation) : nat :=
  count_occ Invocation_eq_dec run pgrepTunnel.

(** Lines 186-191: the directories searched for the status images. *)
Definition resourcesCandidates {rt : GoRuntime} {host : Host} (usr : User) : list string :=
  let baseDir :=
    match os_Executable with
    | inr exePath => filepath_Dir exePath
    | inl _ => EmptyString
    end in
  [ filepath_Join baseDir "../Resources";
    filepath_Join baseDir "Resources";
    filepath_Join "./Resources" EmptyString;
    filepath_Join (HomeDir usr) EmptyString ].

(** The candidate that decides: the first that is not empty. *)
Definition resourcesDir {rt : GoRuntime} {host : Host} (usr : User) : option string :=
  find (fun rdir => negb (String.eqb rdir EmptyString)) (resourcesCandidates usr).

(** The menu item of a command, as [buildMenu] adds it. *)
Definition commandItem (cmd : Command) : MenuEntry :=
  Item (mkMenuItem (Description cmd) ("Connect to " +:+ Server cmd) false)
       (ConnectTo (Name cmd)).

(** The last five entries of the menu, with the Disconnect item disabled or
    not. *)
Definition fixedEntries (disabled : bool) : list MenuEntry :=
  [ Item (mkMenuItem "Disconnect" "Disconnect from VPN" disabled) DisconnectNow;
    Separator;
    Item (mkMenuItem "⚙️ Edit Configuration" "Edit VPN configuration file" false) EditConfig;
    Separator;
    Item (mkMenuItem "Quit" "Quit the application" false) QuitApp ].

(** ** A model of package [path/filepath] on Unix paths

    [Clean] follows the four lexical rules of the package; [Join] drops empty
    elements and cleans the result; [Dir] cleans what precedes the last
    element. *)
Module GoPath.

Fixpoint splitSlash (s : string) : list string :=
  match s with
  | EmptyString => [EmptyString]
  | String a s' =>
      if Ascii.eqb a "/"%char then EmptyString :: splitSlash s'
      else match splitSlash s' with
           | elem :: rest => String a elem :: rest
           | [] => [String a EmptyString]
           end
  end.

(** One element against the elements kept so far, innermost first. *)
Definition cleanStep (rooted : bool) (kept : list string) (elem : string) : list string :=
  if (String.eqb elem EmptyString || String.eqb elem ".")%bool then kept
  else if String.eqb elem ".." then
    match kept with
    | top :: rest => if String.eqb top ".." then elem :: kept else rest
    | [] => if rooted then [] else [elem]
    end
  else elem :: kept.

Fixpoint joinSlash (elems : list string) : string :=
  match elems with
  | [] => EmptyString
  | [x] => x
  | x :: rest => x +:+ "/" +:+ joinSlash rest
  end.

Definition Clean (path : string) : string :=
  if String.eqb path EmptyString then "."
  else
    let rooted := strings.HasPrefix path "/" in
    let body := joinSlash (rev (fold_left (cleanStep rooted) (splitSlash path) [])) in
    if rooted then "/" +:+ body
    else if String.eqb body EmptyString then "." else body.

Definition Join (a b : string) : string :=
  if String.eqb a EmptyString then
    if String.eqb b EmptyString then EmptyString else Clean b
  else if String.eqb b EmptyString then Clean a
  else Clean (a +:+ "/" +:+ b).

(** The part of a path up to and including its last slash. *)
Fixpoint dirPart (s : string) : string :=
  match s with
  | EmptyString => EmptyString
  | String a s' =>
      if strings.Contains s' "/" then String a (dirPart s')
      else if Ascii.eqb a "/"%char then String a EmptyString
      else EmptyString
  end.

Definition Dir (path : string) : string := Clean (dirPart path).

End GoPath.

(** The runtime with both models. *)
Definition desktopRuntime : GoRuntime :=
  {| json_Unmarshal := GoJson.Unmarshal;
     json_MarshalIndent := fun c => inr (GoJson.MarshalIndent c);
     filepath_Join := GoPath.Join |}.

(** ** More worlds *)

Definition bundleExecutable : string :=
  "/Applications/SOCKS VPN Menu.app/Contents/MacOS/socks-vpn-menu".

Definition bundleResources : string :=
  "/Applications/SOCKS VPN Menu.app/Contents/Resources".

(** A Mac with Sublime Text and vim on the PATH and no EDITOR set; the same
    with EDITOR set to emacs. *)
Definition macHost : Host :=
  {| os_Getenv := fun _ => EmptyString;
     exec_LookPath := fun p => String.eqb p "subl" || String.eqb p "vim";
     os_Executable := inr bundleExecutable;
     filepath_Dir := GoPath.Dir |}.

Definition emacsHost : Host :=
  {| os_Getenv := fun name => if String.eqb name "EDITOR" then "emacs" else EmptyString;
     exec_LookPath := fun p => String.eqb p "subl" || String.eqb p "vim";
     os_Executable := inr bundleExecutable;
     filepath_Dir := GoPath.Dir |}.

(** Two profiles named office and one named home. *)
Definition officeFirst : Command := mkCommand "office" "Office" "office.example.com".
Definition officeSecond : Command := mkCommand "office" "Office (backup)" "backup.example.com".
Definition homeProfile : Command := mkCommand "home" "Home" "home.example.com".

Definition duplicateConfig : Config :=
  {| AutoSSHPath := "/opt/homebrew/bin/autossh";
     LocalPort := 1234;
     Interface := "Wi-Fi";
     ServerOptions' := {| ServerAliveInterval := 10; ServerAliveCountMax := 3 |};
     Commands := [homeProfile; officeFirst; officeSecond] |}.

(** Nothing is running and every command but pkill and pgrep succeeds. *)
Definition quietAnswer (c : Invocation) : ExecResult :=
  if isProgram "pkill" c then exitWith 1
  else if isProgram "pgrep" c then exitWith 1 else ok.

(** A tunnel is running and survives the first kill: pgrep finds it. *)
Definition stubbornAnswer (c : Invocation) : ExecResult :=
  if isProgram "pgrep" c then mkExecResult "4242" None else ok.

Definition duplicateWorld : World := session (Some duplicateConfig) ∅ quietAnswer.

Definition stubbornWorld : World := session (Some officeConfig) ∅ stubbornAnswer.

(** The configuration file of [officeConfig] and the two status images of
    the application bundle. *)
Definition bundleFiles : gmap string string :=
  {[ homeConfigPath := GoJson.MarshalIndent officeConfig;
     bundleResources +:+ "/connected.png" := "connected-image";
     bundleResources +:+ "/disconnected.png" := "disconnected-image" ]}.

Definition bundleWorld : World := session (Some officeConfig) bundleFiles quietAnswer.


(** The user database cannot be read. *)
Definition noUserWorld : World :=
  {| app_config := None;
     os_user := inl (SysError "user: unknown userid");
     os_files := ∅;
     os_write_ok := fun _ => true;
     os_exec := fun _ c => quietAnswer c;
     os_trace := [];
     os_log := [] |}.

(** The tray before [onReady], and after a menu for [officeConfig] was
    built while the tunnel was up. *)
Definition emptyTray (w : World) : Tray :=
  mkTray w EmptyString EmptyString None [] None.

Definition builtTray (w : World) : Tray :=
  mkTray w "SOCKS VPN Menu - Connected" EmptyString (Some "connected-image")
         (commandItem (mkCommand "office" "Office" "office.example.com")
            :: Separator :: fixedEntries false)
         (Some 2%nat).

(** The error, if any, that [connectVPN] returns from the outcomes of its
    two commands. *)
Definition connectOutcome (started enabled : option error) : option error :=
  match started with
  | Some e => Some (Errorf "failed to start autossh: %w" [AErr e])
  | None =>
      match enabled with
      | Some e => Some (Errorf "failed to set SOCKS proxy: %w" [AErr e])
      | None => None
      end
  end.


Ltac unfold_tray :=
  unfold tbind, tret, liftW, SetTooltip, SetTitle, SetIcon, AddMenuItem, AddSeparator,
    Disable, Enable, setDisconnectItem, derefDisconnectItem, getDisconnectItem in *.


(** * Properties *)

(** ** The primitives *)

Lemma Run_spec (c : Invocation) (w : World) :
  Run c w = Some (exec_err (os_exec w (os_trace w) c), set_trace (os_trace w ++ [c]) w).
Proof. reflexivity. Qed.

Lemma Output_spec (c : Invocation) (w : World) :
  Output c w =
  Some ((exec_stdout (os_exec w (os_trace w) c), exec_err (os_exec w (os_trace w) c)),
        set_trace (os_trace w ++ [c]) w).
Proof. reflexivity. Qed.

Lemma findCommand_None (name : string) (cmds : list Command) :
  ~ In name (map Name cmds) -> findCommand name cmds = None.
Proof.
  unfold findCommand. induction cmds as [|cmd cmds IH]; cbn [find map In]; intros Hnot.
  - reflexivity.
  - destruct (String.eqb_spec (Name cmd) name) as [Heq|Hne].
    + exfalso. apply Hnot. now left.
    + apply IH. intros Hin. apply Hnot. now right.
Qed.

Lemma findCommand_Some (name : string) (cmds : list Command) (target : Command) :
  findCommand name cmds = Some target -> In target cmds /\ Name target = name.
Proof.
  unfold findCommand. intros H. apply find_some in H as [Hin Heq].
  split; [exact Hin|]. now apply String.eqb_eq.
Qed.

(** ** TunnelSupervisor *)

(** Every run of [disconnectVPN] on a non-nil configuration returns nil,
    leaves configuration, files and user alone, and runs the proxy switch,
    the kill and then at most the existence check and the SIGKILL. *)
Lemma disconnectVPN_spec (w : World) (c : Config) :
  app_config w = Some c ->
  exists w',
    disconnectVPN w = Some (None, w') /\
    app_config w' = Some c /\
    os_exec w' = os_exec w /\
    os_files w' = os_files w /\
    os_user w' = os_user w /\
    exists tl,
      os_trace w' = os_trace w ++ proxyOff (Interface c) :: pkillAutossh :: tl /\
      (noProcessFound
         (exec_err (os_exec w (os_trace w ++ [proxyOff (Interface c)]) pkillAutossh)) = true ->
       tl = []) /\
      (tl = [] \/ tl = [pgrepAutossh] \/ tl = [pgrepAutossh; pkill9Autossh]).
Proof.
  intros Hc. unfold disconnectVPN, escalateKill. unfold_go. rewrite Hc. cbn.
  destruct (exec_err (os_exec w (os_trace w) (proxyOff (Interface c)))); cbn;
  (destruct (exec_err (os_exec w (os_trace w ++ [proxyOff (Interface c)]) pkillAutossh))
     as [[ws| |]|]; cbn;
   [ destruct (ExitStatus ws =? 1)%Z; cbn | | | ]);
  repeat break_match;
  (eexists; split; [reflexivity|]; cbn; repeat (split; [auto; fail|]);
   rewrite <- ?app_assoc; cbn;
   eexists; split; [reflexivity|];
   split; [ try discriminate; try reflexivity | auto ]).
Qed.

(** C1, as stated, fails where the supervisor cannot start: with the
    [office] profile present and autossh exiting with status 255,
    [connectVPN] returns after the spawn and never enables the proxy. *)
Lemma connectVPN_spawn_failure_skips_proxy :
  findCommand "office" (Commands officeConfig)
    = Some (mkCommand "office" "Office" "office.example.com") /\
  exists w2,
    connectVPN "office" spawnFailsWorld =
      Some (Some (Errorf "failed to start autossh: %w" [AErr (ExitError (Exited 255))]), w2) /\
    os_trace w2 =
      [ proxyOff "Wi-Fi"; pkillAutossh;
        Cmd "/opt/homebrew/bin/autossh"
            ["-f"; "-M"; "0"; "-o"; "ServerAliveInterval 10"; "-o"; "ServerAliveCountMax 3";
             "-D"; "localhost:1234"; "-N"; "office.example.com"] ] /\
    ~ In (proxyOn officeConfig) (os_trace w2).
Proof.
  split; [reflexivity|]. eexists. split; [vm_compute; reflexivity|].
  split; [reflexivity|]. cbn. intros [H|[H|[H|[]]]]; discriminate H.
Qed.

(** C1, amended: for every configuration in which the requested name
    resolves to a profile, [connectVPN] first performs a full
    [disconnectVPN] (whatever that finds), then runs the supervisor with
    [-M 0], the two configured keepalive options, [-D localhost:port], [-N]
    and the profile's server; if that command succeeds it then enables the
    SOCKS proxy of the configured interface at 127.0.0.1:port, and if it
    fails it returns the start error with the proxy not enabled.  Nothing
    else is run, and the order is this one. *)
Theorem connectVPN_sequence (w : World) (c : Config) (commandName : string)
    (target : Command) :
  app_config w = Some c ->
  findCommand commandName (Commands c) = Some target ->
  let start :=
    Cmd (AutoSSHPath c)
        ["-f"; "-M"; "0";
         "-o"; "ServerAliveInterval " +:+ pretty (ServerAliveInterval (ServerOptions' c));
         "-o"; "ServerAliveCountMax " +:+ pretty (ServerAliveCountMax (ServerOptions' c));
         "-D"; "localhost:" +:+ pretty (LocalPort c);
         "-N"; Server target] in
  let enable :=
    Cmd "networksetup"
        ["-setsocksfirewallproxy"; Interface c; "127.0.0.1"; pretty (LocalPort c)] in
  exists w1 tl r w2,
    disconnectVPN w = Some (None, w1) /\
    os_trace w1 = os_trace w ++ proxyOff (Interface c) :: pkillAutossh :: tl /\
    connectVPN commandName w = Some (r, w2) /\
    match exec_err (os_exec w (os_trace w1) start) with
    | None =>
        os_trace w2 = os_trace w1 ++ [start; enable] /\
        match exec_err (os_exec w (os_trace w1 ++ [start]) enable) with
        | None => r = None
        | Some e => r = Some (Errorf "failed to set SOCKS proxy: %w" [AErr e])
        end
    | Some e =>
        os_trace w2 = os_trace w1 ++ [start] /\
        r = Some (Errorf "failed to start autossh: %w" [AErr e])
    end.
Proof.
  intros Hc Hfind start enable.
  destruct (disconnectVPN_spec w c Hc) as (w1 & Hd & Hc1 & Hex & _ & _ & tl & Htr & _).
  exists w1, tl.
  unfold connectVPN. unfold bind at 1. unfold derefConfig at 1. rewrite Hc, Hfind.
  unfold bind at 1. rewrite Hd.
  unfold bind at 1. unfold derefConfig. rewrite Hc1.
  unfold bind at 1. rewrite Run_spec. rewrite Hex.
  change (spawn c (Server target)) with start.
  destruct (exec_err (os_exec w (os_trace w1) start)) as [e|].
  - do 2 eexists. split; [reflexivity|]. split; [exact Htr|].
    split; [reflexivity|]. split; reflexivity.
  - unfold bind at 1. rewrite Run_spec. cbn [os_exec os_trace set_trace]. rewrite Hex.
    change (proxyOn c) with enable.
    destruct (exec_err (os_exec w (os_trace w1 ++ [start]) enable)) as [e|];
      (do 2 eexists; split; [reflexivity|]; split; [exact Htr|]; split; [reflexivity|];
       cbn; rewrite <- app_assoc; split; reflexivity).
Qed.

(** The connect scenario: port 1234, interface Wi-Fi, profile [office]. *)
Lemma connectVPN_sequence_witness :
  app_config quietWorld = Some officeConfig /\
  findCommand "office" (Commands officeConfig)
    = Some (mkCommand "office" "Office" "office.example.com") /\
  exists w2,
    connectVPN "office" quietWorld = Some (None, w2) /\
    os_trace w2 =
      [ proxyOff "Wi-Fi"; pkillAutossh;
        Cmd "/opt/homebrew/bin/autossh"
            ["-f"; "-M"; "0"; "-o"; "ServerAliveInterval 10"; "-o"; "ServerAliveCountMax 3";
             "-D"; "localhost:1234"; "-N"; "office.example.com"];
        Cmd "networksetup" ["-setsocksfirewallproxy"; "Wi-Fi"; "127.0.0.1"; "1234"] ].
Proof.
  split; [reflexivity|]. split; [reflexivity|].
  destruct (connectVPN_sequence quietWorld officeConfig "office"
              (mkCommand "office" "Office" "office.example.com") eq_refl eq_refl)
    as (w1 & tl & r & w2 & Hd & Htr & Hconn & Hshape).
  exists w2.
  vm_compute in Hd. injection Hd as <-.
  vm_compute in Hshape. destruct Hshape as [Ht ->].
  split; [exact Hconn | exact Ht].
Defined.

(** C2, as stated, fails: where networksetup exits with status 1 the
    proxy-disable step has failed, yet [disconnectVPN] returns nil. *)
Lemma disconnectVPN_hides_proxy_failure :
  exec_err (os_exec proxyDownWorld (os_trace proxyDownWorld) (proxyOff "Wi-Fi"))
    = Some (ExitError (Exited 1)) /\
  fst <$> disconnectVPN proxyDownWorld = Some None.
Proof. split; reflexivity. Qed.

(** C2, amended: [disconnectVPN] never returns an error.  A failure to
    disable the SOCKS proxy is logged as a warning and the kill step still
    runs; a failure of the kill command (anything but exit status 1) is
    logged, never returned. *)
Theorem disconnectVPN_returns_nil (w : World) (c : Config) :
  app_config w = Some c ->
  exists w' tl,
    disconnectVPN w = Some (None, w') /\
    os_trace w' = os_trace w ++ proxyOff (Interface c) :: pkillAutossh :: tl /\
    (forall e, exec_err (os_exec w (os_trace w) (proxyOff (Interface c))) = Some e ->
               exists rest, os_log w' = os_log w ++ proxyWarning e :: rest) /\
    (forall e,
        exec_err (os_exec w (os_trace w ++ [proxyOff (Interface c)]) pkillAutossh) = Some e ->
        noProcessFound (Some e) = false ->
        In (killFailureLine e) (os_log w')).
Proof.
  intros Hc. unfold disconnectVPN, escalateKill. unfold_go. rewrite Hc. cbn.
  destruct (exec_err (os_exec w (os_trace w) (proxyOff (Interface c)))); cbn;
  (destruct (exec_err (os_exec w (os_trace w ++ [proxyOff (Interface c)]) pkillAutossh))
     as [[ws| |]|]; cbn;
   [ destruct (ExitStatus ws =? 1)%Z eqn:Hst; cbn | | | ]);
  repeat break_match;
  (do 2 eexists; split; [reflexivity|]; cbn; rewrite <- ?app_assoc; cbn;
   split; [reflexivity|];
   split;
   [ intros e' He'; simplify_eq; eexists; reflexivity
   | intros e' He' Hnp;
     first [ discriminate He'
           | injection He' as <-; cbn in Hnp;
             first [ congruence | rewrite ?in_app_iff; cbn; auto 10 ] ] ]).
Qed.

Lemma disconnectVPN_returns_nil_witness :
  app_config proxyDownWorld = Some officeConfig /\
  exists w' tl,
    disconnectVPN proxyDownWorld = Some (None, w') /\
    os_trace w' = os_trace proxyDownWorld ++ proxyOff "Wi-Fi" :: pkillAutossh :: tl /\
    (forall e,
        exec_err (os_exec proxyDownWorld (os_trace proxyDownWorld) (proxyOff "Wi-Fi")) = Some e ->
        exists rest, os_log w' = os_log proxyDownWorld ++ proxyWarning e :: rest) /\
    (forall e,
        exec_err (os_exec proxyDownWorld (os_trace proxyDownWorld ++ [proxyOff "Wi-Fi"])
                          pkillAutossh) = Some e ->
        noProcessFound (Some e) = false ->
        In (killFailureLine e) (os_log w')).
Proof.
  split; [reflexivity|].
  apply (disconnectVPN_returns_nil proxyDownWorld officeConfig). reflexivity.
Defined.

(** C3: for every configuration and every name that no profile of its
    command list carries, [connectVPN] returns the not-found error and the
    world after the call is the world before it: no command was run (no
    disconnect, no spawn, no proxy change), nothing was logged and the
    configuration is the same, so whatever the probe would observe is
    unchanged. *)
Theorem connectVPN_unknown_profile (w : World) (c : Config) (commandName : string) :
  app_config w = Some c ->
  ~ In commandName (map Name (Commands c)) ->
  connectVPN commandName w =
  Some (Some (Errorf "command '%s' not found in configuration" [AStr commandName]), w).
Proof.
  intros Hc Hnot. unfold connectVPN. unfold_go. rewrite Hc.
  now rewrite (findCommand_None _ _ Hnot).
Qed.

Lemma connectVPN_unknown_profile_witness :
  app_config quietWorld = Some officeConfig /\
  ~ In "home" (map Name (Commands officeConfig)) /\
  connectVPN "home" quietWorld =
  Some (Some (Errorf "command '%s' not found in configuration" [AStr "home"]), quietWorld).
Proof.
  assert (Hnot : ~ In "home" (map Name (Commands officeConfig))).
  { cbn. intros [H|[]]. discriminate H. }
  split; [reflexivity|]. split; [exact Hnot|].
  apply (connectVPN_unknown_profile quietWorld officeConfig "home"); [reflexivity|exact Hnot].
Defined.

(** C4: when the kill command ends with exit status 1 (no matching
    process), [disconnectVPN] returns nil at once: it has run the proxy
    switch and the kill and nothing more, and it has logged nothing about
    the kill (the only line it can have logged is the proxy warning). *)
Theorem disconnectVPN_no_process_is_success (w : World) (c : Config) (ws : WaitStatus) :
  app_config w = Some c ->
  exec_err (os_exec w (os_trace w ++ [proxyOff (Interface c)]) pkillAutossh)
    = Some (ExitError ws) ->
  ExitStatus ws = 1 ->
  exists w',
    disconnectVPN w = Some (None, w') /\
    os_trace w' = os_trace w ++ [proxyOff (Interface c); pkillAutossh] /\
    os_log w' = os_log w ++
                match exec_err (os_exec w (os_trace w) (proxyOff (Interface c))) with
                | Some e => [proxyWarning e]
                | None => []
                end.
Proof.
  intros Hc Hk Hst. unfold disconnectVPN. unfold_go. rewrite Hc. cbn.
  destruct (exec_err (os_exec w (os_trace w) (proxyOff (Interface c)))); cbn;
    rewrite Hk, Hst; cbn;
    (eexists; split; [reflexivity|]; cbn; rewrite <- ?app_assoc, ?app_nil_r; auto).
Qed.

Lemma disconnectVPN_no_process_is_success_witness :
  app_config quietWorld = Some officeConfig /\
  exec_err (os_exec quietWorld (os_trace quietWorld ++ [proxyOff "Wi-Fi"]) pkillAutossh)
    = Some (ExitError (Exited 1)) /\
  ExitStatus (Exited 1) = 1 /\
  exists w',
    disconnectVPN quietWorld = Some (None, w') /\
    os_trace w' = [proxyOff "Wi-Fi"; pkillAutossh] /\
    os_log w' = [].
Proof.
  split; [reflexivity|]. split; [reflexivity|]. split; [reflexivity|].
  apply (disconnectVPN_no_process_is_success quietWorld officeConfig (Exited 1));
    reflexivity.
Defined.

(** ** ConnectionProbe *)

(** C5 fails on the code: the test of line 319 reads the whole line of lsof
    output, not its COMMAND column as the comment of line 313 says.  No
    autossh process exists, the port is positive, and the only listener on
    it belongs to nginx, which is not of the ssh family, but runs as user
    sshadmin: [isVPNConnected] consults lsof and returns true. *)
Theorem isVPNConnected_foreign_listener_reported_connected :
  let w := foreignListenerWorld in
  0 < LocalPort officeConfig /\
  exec_err (os_exec w [] pgrepTunnel) <> None /\
  exec_err (os_exec w [pgrepTunnel] pgrepAutossh) <> None /\
  map commandColumn (drop 1 (strings.SplitLines (strings.TrimSpace foreignListing)))
    = ["nginx"] /\
  sshFamily "nginx" = false /\
  exists w',
    isVPNConnected w = Some (true, w') /\
    os_trace w' = [pgrepTunnel; pgrepAutossh; lsofListen 1234].
Proof.
  cbn zeta. split; [reflexivity|]. split; [discriminate|]. split; [discriminate|].
  split; [reflexivity|]. split; [reflexivity|].
  eexists. split; vm_compute; reflexivity.
Qed.

(** What the third check does decide: a listing none of whose lines after
    the header mentions ssh anywhere gives Disconnected. *)
Lemma isVPNConnected_listing_without_ssh (w : World) (c : Config) :
  let r1 := os_exec w (os_trace w) pgrepTunnel in
  let r2 := os_exec w (os_trace w ++ [pgrepTunnel]) pgrepAutossh in
  let r3 := os_exec w (os_trace w ++ [pgrepTunnel; pgrepAutossh]) (lsofListen (LocalPort c)) in
  negb (isSome (exec_err r1)) && hasOutput (exec_stdout r1) = false ->
  exec_err r2 <> None ->
  app_config w = Some c ->
  0 < LocalPort c ->
  exec_err r3 = None ->
  hasOutput (exec_stdout r3) = true ->
  Forall (fun ln => mentionsSSH ln = false)
         (drop 1 (strings.SplitLines (strings.TrimSpace (exec_stdout r3)))) ->
  exists w', isVPNConnected w = Some (false, w').
Proof.
  intros r1 r2 r3 H1 H2 Hc Hport H3 Hout Hall.
  unfold isVPNConnected. unfold bind at 1. rewrite Output_spec. fold r1. cbn [fst snd].
  rewrite H1. unfold bind at 1. rewrite Run_spec. cbn [os_exec os_trace set_trace]. fold r2.
  destruct (exec_err r2) as [e2|]; [|congruence]. cbn [isSome negb].
  unfold bind at 1, getConfig. cbn [app_config set_trace]. rewrite Hc.
  apply Z.ltb_lt in Hport. rewrite Hport.
  unfold bind at 1. rewrite Output_spec. cbn [os_exec os_trace set_trace fst snd].
  rewrite <- app_assoc. cbn [app]. fold r3. rewrite H3, Hout. cbn [isSome negb andb].
  assert (Hnone : sshListener (strings.SplitLines (strings.TrimSpace (exec_stdout r3))) = None).
  { unfold sshListener. destruct (1 <? _)%nat; [|reflexivity].
    induction Hall as [|ln lns Hln _ IH]; cbn [find]; [reflexivity|].
    now rewrite Hln. }
  rewrite Hnone. unfold_go. eexists. reflexivity.
Qed.

(** C10: when neither process check finds the supervisor and the
    configuration is nil or its local port is not positive,
    [isVPNConnected] returns false having run the two process checks and
    nothing else: lsof is not consulted, and the closing log line carries
    the port, or 0 for a nil configuration. *)
Theorem isVPNConnected_skips_socket_check (w : World) :
  let r1 := os_exec w (os_trace w) pgrepTunnel in
  let r2 := os_exec w (os_trace w ++ [pgrepTunnel]) pgrepAutossh in
  negb (isSome (exec_err r1)) && hasOutput (exec_stdout r1) = false ->
  exec_err r2 <> None ->
  (app_config w = None \/ exists c, app_config w = Some c /\ LocalPort c <= 0) ->
  exists w',
    isVPNConnected w = Some (false, w') /\
    os_trace w' = os_trace w ++ [pgrepTunnel; pgrepAutossh] /\
    os_log w' = os_log w ++
      [Logged "VPN disconnected: no autossh process or SSH listener on port %d"
              [AInt (match app_config w with Some c => LocalPort c | None => 0 end)]].
Proof.
  intros r1 r2 H1 H2 Hcfg.
  unfold isVPNConnected. unfold bind at 1. rewrite Output_spec. fold r1. cbn [fst snd].
  rewrite H1. unfold bind at 1. rewrite Run_spec. cbn [os_exec os_trace set_trace]. fold r2.
  destruct (exec_err r2) as [e2|]; [|congruence]. cbn [isSome negb].
  unfold bind at 1, getConfig. cbn [app_config set_trace].
  destruct Hcfg as [Hnil|(c & Hc & Hport)].
  - rewrite Hnil. unfold reportDisconnected. unfold_go. cbn. rewrite Hnil.
    eexists. split; [reflexivity|]. cbn. rewrite <- app_assoc. auto.
  - rewrite Hc. apply Z.ltb_ge in Hport. rewrite Hport.
    unfold reportDisconnected. unfold_go. cbn. rewrite Hc.
    eexists. split; [reflexivity|]. cbn. rewrite <- app_assoc. auto.
Qed.

Lemma isVPNConnected_skips_socket_check_witness :
  negb (isSome (exec_err (os_exec noConfigWorld [] pgrepTunnel)))
    && hasOutput (exec_stdout (os_exec noConfigWorld [] pgrepTunnel)) = false /\
  exec_err (os_exec noConfigWorld [pgrepTunnel] pgrepAutossh) <> None /\
  app_config noConfigWorld = None /\
  exists w',
    isVPNConnected noConfigWorld = Some (false, w') /\
    os_trace w' = [pgrepTunnel; pgrepAutossh] /\
    os_log w' =
      [Logged "VPN disconnected: no autossh process or SSH listener on port %d" [AInt 0]].
Proof.
  split; [reflexivity|]. split; [discriminate|]. split; [reflexivity|].
  apply (isVPNConnected_skips_socket_check noConfigWorld);
    [reflexivity | discriminate | left; reflexivity].
Defined.

(** ** ConfigStore *)

Section ConfigStore.
Context {rt : GoRuntime}.

Lemma loadConfig_ok (w : World) (usr : User) (data : string) (raw : Config) :
  os_user w = inr usr ->
  os_files w !! filepath_Join (HomeDir usr) ".vpn.json" = Some data ->
  json_Unmarshal data = inr raw ->
  loadConfig w = Some (inr (setDefaults raw), w).
Proof.
  intros Hu Hf Hj. unfold loadConfig, user_Current, ReadFile. unfold_go.
  now rewrite Hu, Hf, Hj.
Qed.

Lemma loadConfig_inv (w w' : World) (c : Config) :
  loadConfig w = Some (inr c, w') ->
  w' = w /\
  exists usr data raw,
    os_user w = inr usr /\
    os_files w !! filepath_Join (HomeDir usr) ".vpn.json" = Some data /\
    json_Unmarshal data = inr raw /\
    c = setDefaults raw.
Proof.
  unfold loadConfig, user_Current, ReadFile. unfold_go.
  destruct (os_user w) as [e|usr]; [discriminate|].
  destruct (os_files w !! _) as [data|] eqn:Hf; [|discriminate].
  destruct (json_Unmarshal data) as [e|raw] eqn:Hj; [discriminate|].
  intros [= <- <-]. split; [reflexivity|]. exists usr, data, raw. auto.
Qed.

(** The loader reads the user, the file and nothing else: the log does not
    matter to it, and it changes nothing. *)
Lemma loadConfig_log (w w' : World) (l : list LogLine) (r : error + Config) :
  loadConfig w = Some (r, w') ->
  w' = w /\ loadConfig (set_log l w) = Some (r, set_log l w).
Proof.
  unfold loadConfig, user_Current, ReadFile. unfold_go.
  change (os_user (set_log l w)) with (os_user w).
  destruct (os_user w) as [e|usr]; [intros [= <- <-]; auto|].
  change (os_files (set_log l w)) with (os_files w).
  destruct (os_files w !! _) as [data|]; [|intros [= <- <-]; auto].
  destruct (json_Unmarshal data) as [e|raw]; intros [= <- <-]; auto.
Qed.

(** Each defaulted field depends on that field of the decoded value only. *)
Lemma setDefaults_fields (raw : Config) :
  let c := setDefaults raw in
  AutoSSHPath c =
    (if String.eqb (AutoSSHPath raw) EmptyString then "/opt/homebrew/bin/autossh"
     else AutoSSHPath raw) /\
  LocalPort c = (if (LocalPort raw =? 0)%Z then 1234 else LocalPort raw) /\
  Interface c = (if String.eqb (Interface raw) EmptyString then "Wi-Fi" else Interface raw) /\
  ServerAliveInterval (ServerOptions' c) =
    (if (ServerAliveInterval (ServerOptions' raw) =? 0)%Z then 10
     else ServerAliveInterval (ServerOptions' raw)) /\
  ServerAliveCountMax (ServerOptions' c) =
    (if (ServerAliveCountMax (ServerOptions' raw) =? 0)%Z then 3
     else ServerAliveCountMax (ServerOptions' raw)) /\
  Commands c = Commands raw.
Proof.
  destruct raw as [p port i [ai ac] cmds]. unfold setDefaults. cbn.
  destruct (String.eqb p EmptyString); cbn;
    destruct (port =? 0)%Z; cbn;
    destruct (String.eqb i EmptyString); cbn;
    destruct (ai =? 0)%Z; cbn;
    destruct (ac =? 0)%Z; cbn; repeat split; reflexivity.
Qed.

(** C6: when the configuration file is read and parsed, [loadConfig]
    returns a configuration in which each of [server_alive_interval],
    [server_alive_count_max], [local_port] and [interface] is, on its own,
    the default (10, 3, 1234, Wi-Fi) if the decoded value is zero or empty,
    as it is for a missing field or an empty [server_options] object, and
    the decoded value unchanged otherwise. *)
Theorem loadConfig_defaults (w : World) (usr : User) (data : string) (raw : Config) :
  os_user w = inr usr ->
  os_files w !! filepath_Join (HomeDir usr) ".vpn.json" = Some data ->
  json_Unmarshal data = inr raw ->
  exists c,
    loadConfig w = Some (inr c, w) /\
    ServerAliveInterval (ServerOptions' c) =
      (if (ServerAliveInterval (ServerOptions' raw) =? 0)%Z then 10
       else ServerAliveInterval (ServerOptions' raw)) /\
    ServerAliveCountMax (ServerOptions' c) =
      (if (ServerAliveCountMax (ServerOptions' raw) =? 0)%Z then 3
       else ServerAliveCountMax (ServerOptions' raw)) /\
    LocalPort c = (if (LocalPort raw =? 0)%Z then 1234 else LocalPort raw) /\
    Interface c = (if String.eqb (Interface raw) EmptyString then "Wi-Fi" else Interface raw).
Proof.
  intros Hu Hf Hj. exists (setDefaults raw).
  split; [now apply (loadConfig_ok w usr data raw)|].
  pose proof (setDefaults_fields raw) as (_ & Hp & Hi & Hai & Hac & _). auto.
Qed.

(** C7, amended: every configuration that [loadConfig] returns has a
    non-zero local port: 1234 when the file gives none or zero, and
    otherwise the value of the file as decoded, with no check of its range. *)
Theorem loadConfig_port_nonzero (w w' : World) (c : Config) :
  loadConfig w = Some (inr c, w') ->
  LocalPort c <> 0 /\
  exists usr data raw,
    os_user w = inr usr /\
    os_files w !! filepath_Join (HomeDir usr) ".vpn.json" = Some data /\
    json_Unmarshal data = inr raw /\
    LocalPort c = (if (LocalPort raw =? 0)%Z then 1234 else LocalPort raw).
Proof.
  intros Hload. apply loadConfig_inv in Hload as (_ & usr & data & raw & Hu & Hf & Hj & ->).
  pose proof (setDefaults_fields raw) as (_ & Hp & _).
  split.
  - rewrite Hp. destruct (LocalPort raw =? 0)%Z eqn:Hz; [discriminate|].
    now apply Z.eqb_neq.
  - exists usr, data, raw. auto.
Qed.

(** Whatever the encoder and the decoder, provided they agree on the
    template: the configuration loaded after [createDummyConfig] has written
    the configuration path is the template itself, which the defaults leave
    alone. *)
Lemma createDummyConfig_then_loadConfig_any_codec (w w1 : World) (usr : User) :
  (forall data, json_MarshalIndent dummyConfig = inr data ->
                json_Unmarshal data = inr dummyConfig) ->
  os_user w = inr usr ->
  createDummyConfig (filepath_Join (HomeDir usr) ".vpn.json") w = Some (None, w1) ->
  loadConfig w1 = Some (inr dummyConfig, w1).
Proof.
  intros Hrt Hu Hcreate.
  unfold createDummyConfig in Hcreate.
  destruct (json_MarshalIndent dummyConfig) as [e|data] eqn:Hm.
  { discriminate Hcreate. }
  unfold WriteFile in Hcreate. unfold_go.
  destruct (os_write_ok w _); [|discriminate Hcreate].
  injection Hcreate as <-.
  refine (loadConfig_ok _ usr data dummyConfig _ _ _); cbn.
  - exact Hu.
  - apply lookup_insert_eq.
  - now apply Hrt.
Qed.

(** C9: if [loadConfig] fails, [reloadConfiguration] logs the error and
    leaves [app.config] as it was. *)
Theorem reloadConfiguration_failure_keeps_config (w : World) (err : error) :
  loadConfig w = Some (inl err, w) ->
  exists w',
    reloadConfiguration w = Some (tt, w') /\
    app_config w' = app_config w /\
    os_log w' = os_log w ++ [Logged "Reloading configuration..." [];
                             Logged "Error reloading configuration: %v" [AErr err]].
Proof.
  intros Hload. unfold reloadConfiguration. unfold bind at 1. unfold Printf at 1.
  apply (loadConfig_log _ _ (os_log w ++ [Logged "Reloading configuration..." []]))
    in Hload as [_ Hload].
  unfold bind at 1. rewrite Hload. unfold Printf.
  eexists. split; [reflexivity|]. cbn. rewrite <- app_assoc. auto.
Qed.

End ConfigStore.

(** ** ConfigStore on concrete files, with the model of [encoding/json] *)

(** An empty [server_options] object and nothing else: all four defaults. *)
Lemma loadConfig_defaults_witness :
  os_user (worldWithFile emptyOptionsFile) = inr (mkUser "/Users/alice") /\
  os_files (worldWithFile emptyOptionsFile) !! homeConfigPath = Some emptyOptionsFile /\
  GoJson.Unmarshal emptyOptionsFile = inr GoJson.zeroConfig /\
  exists c,
    loadConfig (rt := GoJson.runtime) (worldWithFile emptyOptionsFile)
      = Some (inr c, worldWithFile emptyOptionsFile) /\
    ServerAliveInterval (ServerOptions' c) = 10 /\
    ServerAliveCountMax (ServerOptions' c) = 3 /\
    LocalPort c = 1234 /\
    Interface c = "Wi-Fi".
Proof.
  assert (Hf : os_files (worldWithFile emptyOptionsFile) !! homeConfigPath
               = Some emptyOptionsFile) by (vm_compute; reflexivity).
  assert (Hj : GoJson.Unmarshal emptyOptionsFile = inr GoJson.zeroConfig)
    by (vm_compute; reflexivity).
  split; [reflexivity|]. split; [exact Hf|]. split; [exact Hj|].
  exact (loadConfig_defaults (rt := GoJson.runtime) (worldWithFile emptyOptionsFile)
           (mkUser "/Users/alice") emptyOptionsFile GoJson.zeroConfig eq_refl Hf Hj).
Defined.

(** C7, as stated, fails: a file that sets [local_port] to 70000 loads, and
    the port of the configuration returned is 70000, outside 1-65535. *)
Lemma loadConfig_port_out_of_range :
  exists c,
    loadConfig (rt := GoJson.runtime) (worldWithFile bigPortFile)
      = Some (inr c, worldWithFile bigPortFile) /\
    LocalPort c = 70000 /\
    ~ (1 <= LocalPort c <= 65535).
Proof.
  eexists. split; [vm_compute; reflexivity|]. cbn. split; [reflexivity|lia].
Qed.

Lemma loadConfig_port_nonzero_witness :
  loadConfig (rt := GoJson.runtime) (worldWithFile bigPortFile)
    = Some (inr bigPortConfig, worldWithFile bigPortFile) /\
  LocalPort bigPortConfig <> 0 /\
  exists usr data raw,
    os_user (worldWithFile bigPortFile) = inr usr /\
    os_files (worldWithFile bigPortFile) !! GoJson.Join (HomeDir usr) ".vpn.json" = Some data /\
    GoJson.Unmarshal data = inr raw /\
    LocalPort bigPortConfig = (if (LocalPort raw =? 0)%Z then 1234 else LocalPort raw).
Proof.
  assert (Hl : loadConfig (rt := GoJson.runtime) (worldWithFile bigPortFile)
               = Some (inr bigPortConfig, worldWithFile bigPortFile))
    by (vm_compute; reflexivity).
  split; [exact Hl|].
  exact (loadConfig_port_nonzero (rt := GoJson.runtime) _ _ _ Hl).
Defined.

(** The encoder and the decoder of the model agree on the template. *)
Lemma template_roundtrip :
  GoJson.Unmarshal (GoJson.MarshalIndent dummyConfig) = inr dummyConfig.
Proof. vm_compute. reflexivity. Qed.

(** C8: writing the template with [createDummyConfig] to the configuration
    path, where no file exists, and then calling [loadConfig] yields a
    configuration whose command list is exactly one profile, named example,
    with server your-server-name-or-ip. *)
Theorem createDummyConfig_then_loadConfig (w w1 : World) (usr : User) :
  os_user w = inr usr ->
  os_files w !! GoJson.Join (HomeDir usr) ".vpn.json" = None ->
  createDummyConfig (rt := GoJson.runtime) (GoJson.Join (HomeDir usr) ".vpn.json") w
    = Some (None, w1) ->
  exists c cmd,
    loadConfig (rt := GoJson.runtime) w1 = Some (inr c, w1) /\
    os_files w1 !! GoJson.Join (HomeDir usr) ".vpn.json"
      = Some (GoJson.MarshalIndent dummyConfig) /\
    Commands c = [cmd] /\
    Name cmd = "example" /\
    Server cmd = "your-server-name-or-ip".
Proof.
  intros Hu Hnone Hcreate.
  exists dummyConfig, (mkCommand "example" "Example VPN Server" "your-server-name-or-ip").
  split.
  - apply (createDummyConfig_then_loadConfig_any_codec (rt := GoJson.runtime) w w1 usr);
      [|exact Hu|exact Hcreate].
    intros data [= <-]. exact template_roundtrip.
  - split; [|auto].
    unfold createDummyConfig, WriteFile in Hcreate. unfold_go. cbn in Hcreate.
    destruct (os_write_ok w _); [|discriminate Hcreate].
    injection Hcreate as <-. cbn. apply lookup_insert_eq.
Qed.

Lemma createDummyConfig_then_loadConfig_witness :
  os_user freshWorld = inr (mkUser "/Users/alice") /\
  os_files freshWorld !! homeConfigPath = None /\
  exists w1,
    createDummyConfig (rt := GoJson.runtime) homeConfigPath freshWorld = Some (None, w1) /\
    exists c cmd,
      loadConfig (rt := GoJson.runtime) w1 = Some (inr c, w1) /\
      os_files w1 !! homeConfigPath = Some (GoJson.MarshalIndent dummyConfig) /\
      Commands c = [cmd] /\
      Name cmd = "example" /\
      Server cmd = "your-server-name-or-ip".
Proof.
  assert (Hnone : os_files freshWorld !! homeConfigPath = None) by (vm_compute; reflexivity).
  split; [reflexivity|]. split; [exact Hnone|].
  eexists. split; [reflexivity|].
  exact (createDummyConfig_then_loadConfig freshWorld _ (mkUser "/Users/alice")
           eq_refl Hnone eq_refl).
Defined.

Lemma reloadConfiguration_failure_keeps_config_witness :
  loadConfig (rt := GoJson.runtime) (worldWithFile truncatedFile)
    = Some (inl parseFailure, worldWithFile truncatedFile) /\
  exists w',
    reloadConfiguration (rt := GoJson.runtime) (worldWithFile truncatedFile) = Some (tt, w') /\
    app_config w' = Some officeConfig /\
    os_log w' = [Logged "Reloading configuration..." [];
                 Logged "Error reloading configuration: %v" [AErr parseFailure]].
Proof.
  assert (Hl : loadConfig (rt := GoJson.runtime) (worldWithFile truncatedFile)
               = Some (inl parseFailure, worldWithFile truncatedFile))
    by (vm_compute; reflexivity).
  split; [exact Hl|].
  exact (reloadConfiguration_failure_keeps_config (rt := GoJson.runtime) _ _ Hl).
Defined.

(** * Further properties *)

(** ** More on the probe *)

Lemma HasPrefix_autossh (s : string) :
  strings.HasPrefix s "autossh" = true ->
  exists a b c d rest,
    s = String a (String b (String c (String d rest))) /\
    strings.HasPrefix rest "ssh" = true.
Proof.
  destruct s as [|a [|b [|c [|d rest]]]]; cbn; intros H;
    rewrite ?andb_false_r in H; try discriminate H.
  exists a, b, c, d, rest. split; [reflexivity|].
  repeat (apply andb_prop in H as [_ H]).
  destruct rest as [|x [|y [|z rest]]]; cbn in *; try discriminate H; exact H.
Qed.

Lemma Contains_tail (a : ascii) (s sub : string) :
  strings.Contains s sub = true -> strings.Contains (String a s) sub = true.
Proof.
  intros H. cbn [strings.Contains]. rewrite H. apply orb_true_r.
Qed.

Lemma Contains_of_prefix (s sub : string) :
  strings.HasPrefix s sub = true -> strings.Contains s sub = true.
Proof.
  intros H. destruct s; cbn [strings.Contains]; rewrite H; reflexivity.
Qed.

Lemma Contains_autossh_ssh (s : string) :
  strings.Contains s "autossh" = true -> strings.Contains s "ssh" = true.
Proof.
  induction s as [|a s IH]; intros H.
  - cbn in H. discriminate H.
  - cbn [strings.Contains] in H. apply orb_prop in H as [H|H].
    + apply HasPrefix_autossh in H as (a' & b & c & d & rest & Heq & Hp).
      rewrite Heq. do 4 apply Contains_tail. now apply Contains_of_prefix.
    + apply Contains_tail. now apply IH.
Qed.

Lemma mentionsSSH_eq (ln : string) :
  mentionsSSH ln = strings.Contains (strings.ToLower ln) "ssh".
Proof.
  unfold mentionsSSH.
  destruct (strings.Contains (strings.ToLower ln) "autossh") eqn:Ha; [|reflexivity].
  cbn. symmetry. now apply Contains_autossh_ssh.
Qed.


(** The whole of a probe: its verdict, the commands it ran and what it left
    alone. *)
Lemma isVPNConnected_spec (w : World) :
  let r1 := os_exec w (os_trace w) pgrepTunnel in
  let r2 := os_exec w (os_trace w ++ [pgrepTunnel]) pgrepAutossh in
  let m1 := negb (isSome (exec_err r1)) && hasOutput (exec_stdout r1) in
  let m2 := negb (isSome (exec_err r2)) in
  exists b w',
    isVPNConnected w = Some (b, w') /\
    (app_config w' = app_config w /\ os_user w' = os_user w /\
     os_files w' = os_files w /\ os_write_ok w' = os_write_ok w /\
     os_exec w' = os_exec w) /\
    ((m1 = true /\ b = true /\ os_trace w' = os_trace w ++ [pgrepTunnel]) \/
     (m1 = false /\ m2 = true /\ b = true /\
      os_trace w' = os_trace w ++ [pgrepTunnel; pgrepAutossh]) \/
     (m1 = false /\ m2 = false /\
      (app_config w = None \/ exists c, app_config w = Some c /\ LocalPort c <= 0) /\
      b = false /\ os_trace w' = os_trace w ++ [pgrepTunnel; pgrepAutossh]) \/
     (m1 = false /\ m2 = false /\
      exists c, app_config w = Some c /\ 0 < LocalPort c /\
        let r3 := os_exec w (os_trace w ++ [pgrepTunnel; pgrepAutossh])
                          (lsofListen (LocalPort c)) in
        b = negb (isSome (exec_err r3)) && hasOutput (exec_stdout r3) &&
            isSome (sshListener (strings.SplitLines (strings.TrimSpace (exec_stdout r3)))) /\
        os_trace w' = os_trace w ++ [pgrepTunnel; pgrepAutossh; lsofListen (LocalPort c)])).
Proof.
  intros r1 r2 m1 m2.
  unfold isVPNConnected. unfold bind at 1. rewrite Output_spec. fold r1. cbn [fst snd].
  fold m1. destruct m1 eqn:Hm1.
  { unfold_go. do 2 eexists. split; [reflexivity|]. cbn. split; [auto 10|]. left. auto. }
  unfold bind at 1. rewrite Run_spec. cbn [os_exec os_trace set_trace]. fold r2. fold m2.
  destruct m2 eqn:Hm2.
  { unfold_go. do 2 eexists. split; [reflexivity|]. cbn. split; [auto 10|].
    right. left. rewrite <- app_assoc. auto. }
  unfold bind at 1, getConfig. cbn [app_config set_trace].
  destruct (app_config w) as [c|] eqn:Hc.
  2:{ unfold reportDisconnected. unfold_go. cbn. rewrite Hc.
      do 2 eexists. split; [reflexivity|]. cbn. split; [auto 10|].
      right. right. left. rewrite <- app_assoc. auto 10. }
  destruct (0 <? LocalPort c)%Z eqn:Hport.
  2:{ apply Z.ltb_ge in Hport. unfold reportDisconnected. unfold_go. cbn. rewrite Hc.
      do 2 eexists. split; [reflexivity|]. cbn. split; [auto 10|].
      right. right. left. rewrite <- app_assoc. eauto 10. }
  apply Z.ltb_lt in Hport.
  unfold bind at 1. rewrite Output_spec. cbn [os_exec os_trace set_trace fst snd].
  rewrite <- app_assoc. cbn [app].
  set (r3 := os_exec w (os_trace w ++ [pgrepTunnel; pgrepAutossh]) (lsofListen (LocalPort c))).
  destruct (negb (isSome (exec_err r3)) && hasOutput (exec_stdout r3)) eqn:H3.
  - destruct (sshListener _) as [ln|] eqn:Hl; unfold_go;
      (do 2 eexists; split; [reflexivity|]; split; [cbn; auto 10|];
       right; right; right; split; [reflexivity|]; split; [reflexivity|];
       exists c; split; [reflexivity|]; split; [exact Hport|];
       cbv zeta; fold r3; rewrite H3, Hl;
       split; [reflexivity|]; cbn; rewrite <- app_assoc; reflexivity).
  - unfold reportDisconnected. unfold_go. cbn [app_config set_trace]. rewrite Hc.
    do 2 eexists. split; [reflexivity|]. split; [cbn; auto 10|].
    right. right. right. split; [reflexivity|]. split; [reflexivity|].
    exists c. split; [reflexivity|]. split; [exact Hport|].
    cbv zeta. fold r3. rewrite H3.
    split; [reflexivity|]. cbn. rewrite <- app_assoc. reflexivity.
Qed.




(** X2: the probe never panics and reads only: it leaves the
    configuration, the user and the files alone and runs one, two or three
    commands, always in the order pgrep for the signature, pgrep for autossh,
    lsof on the configured port; lsof only with a configuration and a
    positive port. *)
Theorem isVPNConnected_read_only (w : World) :
  exists b w' run,
    isVPNConnected w = Some (b, w') /\
    app_config w' = app_config w /\
    os_user w' = os_user w /\
    os_files w' = os_files w /\
    os_trace w' = os_trace w ++ run /\
    (run = [pgrepTunnel] \/
     run = [pgrepTunnel; pgrepAutossh] \/
     exists c, app_config w = Some c /\ 0 < LocalPort c /\
               run = [pgrepTunnel; pgrepAutossh; lsofListen (LocalPort c)]).
Proof.
  destruct (isVPNConnected_spec w) as (b & w' & Hrun & (Hc & Hu & Hf & _) & Hcases).
  exists b, w'.
  destruct Hcases as [(_ & _ & Ht)|[(_ & _ & _ & Ht)|[(_ & _ & _ & _ & Ht)|
                     (_ & _ & c & Hcfg & Hport & _ & Ht)]]];
    eexists; (split; [exact Hrun|]); repeat (split; [assumption|]); eauto 10.
Qed.

(** X3: the test of line 319 is a test for ssh alone, without regard to
    ASCII case: a line that contains autossh contains ssh, so the first
    disjunct adds nothing. *)
Theorem mentionsSSH_ssh_only (ln : string) :
  mentionsSSH ln = strings.Contains (strings.ToLower ln) "ssh".
Proof.
  unfold mentionsSSH.
  destruct (strings.Contains (strings.ToLower ln) "autossh") eqn:Ha; [|reflexivity].
  cbn. symmetry. now apply Contains_autossh_ssh.
Qed.

(** ** More on the supervisor *)

Lemma disconnectVPN_exact (w : World) (c : Config) :
  app_config w = Some c ->
  let k := exec_err (os_exec w (os_trace w ++ [proxyOff (Interface c)]) pkillAutossh) in
  let chk := exec_err (os_exec w (os_trace w ++ [proxyOff (Interface c); pkillAutossh])
                               pgrepAutossh) in
  exists w',
    disconnectVPN w = Some (None, w') /\
    (app_config w' = Some c /\ os_user w' = os_user w /\
     os_files w' = os_files w /\ os_write_ok w' = os_write_ok w /\
     os_exec w' = os_exec w) /\
    os_trace w' =
      os_trace w ++ proxyOff (Interface c) :: pkillAutossh ::
        (if noProcessFound k then []
         else pgrepAutossh :: match chk with
                              | None => [pkill9Autossh]
                              | Some _ => []
                              end).
Proof.
  intros Hc k chk. subst k chk.
  unfold disconnectVPN, escalateKill. unfold_go. rewrite Hc. cbn.
  destruct (exec_err (os_exec w (os_trace w) (proxyOff (Interface c)))); cbn;
  (destruct (exec_err (os_exec w (os_trace w ++ [proxyOff (Interface c)]) pkillAutossh))
     as [[ws| |]|]; cbn;
   [ destruct (ExitStatus ws =? 1)%Z; cbn | | | ]);
  rewrite <- ?app_assoc; cbn [app];
  try (destruct (exec_err (os_exec w (os_trace w ++ [proxyOff (Interface c); pkillAutossh])
                                   pgrepAutossh)); cbn);
  repeat break_match;
  (eexists; split; [reflexivity|]; cbn; split; [auto 10|];
   rewrite <- ?app_assoc; reflexivity).
Qed.

(** X4: the commands of a disconnect.  After the proxy switch and the
    kill, nothing more runs if the kill reported exit status 1; otherwise
    the existence check runs, also when the kill succeeded, and the SIGKILL
    follows exactly when that check finds a process. *)
Theorem disconnectVPN_escalation (w : World) (c : Config) :
  app_config w = Some c ->
  let k := exec_err (os_exec w (os_trace w ++ [proxyOff (Interface c)]) pkillAutossh) in
  let chk := exec_err (os_exec w (os_trace w ++ [proxyOff (Interface c); pkillAutossh])
                               pgrepAutossh) in
  exists w',
    disconnectVPN w = Some (None, w') /\
    os_trace w' =
      os_trace w ++ proxyOff (Interface c) :: pkillAutossh ::
        (if noProcessFound k then []
         else pgrepAutossh :: match chk with
                              | None => [pkill9Autossh]
                              | Some _ => []
                              end).
Proof.
  intros Hc k chk.
  destruct (disconnectVPN_exact w c Hc) as (w' & Hrun & _ & Ht). eauto.
Qed.

Lemma connectVPN_run (w : World) (c : Config) (commandName : string) (target : Command) :
  app_config w = Some c ->
  findCommand commandName (Commands c) = Some target ->
  exists w1 w2,
    disconnectVPN w = Some (None, w1) /\
    let started := exec_err (os_exec w (os_trace w1) (spawn c (Server target))) in
    let enabled := exec_err (os_exec w (os_trace w1 ++ [spawn c (Server target)]) (proxyOn c)) in
    connectVPN commandName w = Some (connectOutcome started enabled, w2) /\
    (app_config w2 = Some c /\ os_user w2 = os_user w /\
     os_files w2 = os_files w /\ os_write_ok w2 = os_write_ok w /\
     os_exec w2 = os_exec w) /\
    os_trace w2 =
      os_trace w1 ++ spawn c (Server target) ::
        match started with
        | None => [proxyOn c]
        | Some _ => []
        end /\
    os_log w2 = os_log w1.
Proof.
  intros Hc Hfind.
  destruct (disconnectVPN_exact w c Hc) as (w1 & Hd & (Hc1 & Hu & Hf & Hw & Hex) & _).
  exists w1.
  unfold connectVPN. unfold bind at 1. unfold derefConfig at 1. rewrite Hc, Hfind.
  unfold bind at 1. rewrite Hd.
  unfold bind at 1. unfold derefConfig. rewrite Hc1.
  unfold bind at 1. rewrite Run_spec. rewrite Hex.
  destruct (exec_err (os_exec w (os_trace w1) (spawn c (Server target)))) as [e|].
  - eexists. split; [reflexivity|]. cbn. split; [reflexivity|]. auto 10.
  - unfold bind at 1. rewrite Run_spec. cbn [os_exec os_trace set_trace]. rewrite Hex.
    destruct (exec_err (os_exec w (os_trace w1 ++ [spawn c (Server target)]) (proxyOn c)));
      (eexists; split; [reflexivity|]; cbn; split; [reflexivity|];
       rewrite <- app_assoc; auto 10).
Qed.

(** X5: [connectVPN] returns nil exactly when the name resolves to a
    profile and both the supervisor command and the proxy command, run after
    the disconnect, succeed. *)
Theorem connectVPN_succeeds_iff (w : World) (c : Config) (commandName : string) :
  app_config w = Some c ->
  exists r w2,
    connectVPN commandName w = Some (r, w2) /\
    (r = None <->
     exists target w1,
       findCommand commandName (Commands c) = Some target /\
       disconnectVPN w = Some (None, w1) /\
       exec_err (os_exec w (os_trace w1) (spawn c (Server target))) = None /\
       exec_err (os_exec w (os_trace w1 ++ [spawn c (Server target)]) (proxyOn c)) = None).
Proof.
  intros Hc.
  destruct (findCommand commandName (Commands c)) as [target|] eqn:Hfind.
  - destruct (connectVPN_run w c commandName target Hc Hfind)
      as (w1 & w2 & Hd & Hconn & _ & _ & _).
    cbv zeta in Hconn. do 2 eexists. split; [exact Hconn|]. split.
    + intros Hr. exists target, w1. split; [reflexivity|]. split; [exact Hd|].
      unfold connectOutcome in Hr.
      destruct (exec_err (os_exec w (os_trace w1) (spawn c (Server target))));
        [discriminate|].
      destruct (exec_err (os_exec w (os_trace w1 ++ _) (proxyOn c))); [discriminate|].
      auto.
    + intros (target' & w1' & Hf' & Hd' & Hs & Hp).
      assert (target' = target) by congruence. assert (w1' = w1) by congruence.
      subst. now rewrite Hs, Hp.
  - do 2 eexists. split.
    + unfold connectVPN. unfold_go. rewrite Hc, Hfind. reflexivity.
    + split; [discriminate|]. intros (target & _ & Hf & _). discriminate Hf.
Qed.

Lemma findCommand_first (commandName : string) (pre post : list Command) (target : Command) :
  ~ In commandName (map Name pre) ->
  Name target = commandName ->
  findCommand commandName (pre ++ target :: post) = Some target.
Proof.
  intros Hpre Hname. unfold findCommand.
  induction pre as [|p pre IH]; cbn [app find].
  - rewrite <- Hname, String.eqb_refl. reflexivity.
  - cbn [map In] in Hpre.
    destruct (String.eqb_spec (Name p) commandName) as [Heq|Hne]; [tauto|].
    apply IH. tauto.
Qed.

(** X6: of several profiles with the requested name the first in the
    list is the one connected to: the supervisor is started on its server. *)
Theorem connectVPN_first_match (w : World) (c : Config) (commandName : string)
    (pre post : list Command) (target : Command) :
  app_config w = Some c ->
  Commands c = pre ++ target :: post ->
  ~ In commandName (map Name pre) ->
  Name target = commandName ->
  exists w1 r w2 rest,
    disconnectVPN w = Some (None, w1) /\
    connectVPN commandName w = Some (r, w2) /\
    os_trace w2 = os_trace w1 ++ spawn c (Server target) :: rest /\
    (rest = [] \/ rest = [proxyOn c]).
Proof.
  intros Hc Hcmds Hpre Hname.
  assert (Hfind : findCommand commandName (Commands c) = Some target).
  { rewrite Hcmds. now apply findCommand_first. }
  destruct (connectVPN_run w c commandName target Hc Hfind)
    as (w1 & w2 & Hd & Hconn & _ & Ht & _).
  cbv zeta in Hconn, Ht. exists w1. do 3 eexists.
  split; [exact Hd|]. split; [exact Hconn|]. split; [exact Ht|].
  destruct (exec_err _); auto.
Qed.

(** X7: two connects in a row.  Between the start of the first
    supervisor and the start of the second the proxy is switched off and
    autossh is killed, whether or not the first connect succeeded. *)
Theorem connectVPN_twice_kills_between (w : World) (c : Config) (first second : string)
    (t1 t2 : Command) :
  app_config w = Some c ->
  findCommand first (Commands c) = Some t1 ->
  findCommand second (Commands c) = Some t2 ->
  exists r1 w1 r2 w2 before between after,
    connectVPN first w = Some (r1, w1) /\
    connectVPN second w1 = Some (r2, w2) /\
    os_trace w2 =
      os_trace w ++ before ++ spawn c (Server t1) :: between
                 ++ spawn c (Server t2) :: after /\
    In (proxyOff (Interface c)) between /\
    In pkillAutossh between /\
    ~ In (spawn c (Server t1)) before.
Proof.
  intros Hc Hf1 Hf2.
  destruct (connectVPN_run w c first t1 Hc Hf1)
    as (wa & w1 & Hda & Hconn1 & (Hc1 & _ & _ & _ & Hex1) & Ht1 & _).
  destruct (connectVPN_run w1 c second t2 Hc1 Hf2)
    as (wb & w2 & Hdb & Hconn2 & _ & Ht2 & _).
  destruct (disconnectVPN_exact w c Hc) as (wa' & Hda' & _ & Hta).
  assert (wa' = wa) by congruence. subst wa'.
  destruct (disconnectVPN_exact w1 c Hc1) as (wb' & Hdb' & _ & Htb).
  assert (wb' = wb) by congruence. subst wb'.
  cbv zeta in *.
  set (tlA := if noProcessFound _ then _ else _) in Hta.
  set (tlB := if noProcessFound _ then _ else _) in Htb.
  set (e1 := match exec_err _ with None => [proxyOn c] | Some _ => [] end) in Ht1.
  set (e2 := match exec_err _ with None => [proxyOn c] | Some _ => [] end) in Ht2.
  exists (connectOutcome
            (exec_err (os_exec w (os_trace wa) (spawn c (Server t1))))
            (exec_err (os_exec w (os_trace wa ++ [spawn c (Server t1)]) (proxyOn c)))), w1.
  exists (connectOutcome
            (exec_err (os_exec w1 (os_trace wb) (spawn c (Server t2))))
            (exec_err (os_exec w1 (os_trace wb ++ [spawn c (Server t2)]) (proxyOn c)))), w2.
  exists (proxyOff (Interface c) :: pkillAutossh :: tlA),
         (e1 ++ proxyOff (Interface c) :: pkillAutossh :: tlB), e2.
  split; [exact Hconn1|]. split; [exact Hconn2|].
  split.
  - rewrite Ht2, Htb, Ht1, Hta. rewrite <- !app_assoc. cbn [app].
    rewrite <- ?app_assoc. reflexivity.
  - split; [rewrite in_app_iff; right; now left|].
    split; [rewrite in_app_iff; right; right; now left|].
    clear. intros [H|[H|H]]; try discriminate H.
    unfold tlA in H. destruct (noProcessFound _); [destruct H|].
    destruct H as [H|H]; [discriminate H|].
    destruct (exec_err _); [destruct H|].
    destruct H as [H|[]]. discriminate H.
Qed.

(** X8: neither [disconnectVPN] nor [connectVPN], for any name, changes
    the active configuration or any file. *)
Theorem supervisor_keeps_configuration (w : World) (c : Config) :
  app_config w = Some c ->
  (exists w', disconnectVPN w = Some (None, w') /\
              app_config w' = Some c /\ os_files w' = os_files w) /\
  (forall commandName, exists r w',
     connectVPN commandName w = Some (r, w') /\
     app_config w' = Some c /\ os_files w' = os_files w).
Proof.
  intros Hc. split.
  - destruct (disconnectVPN_exact w c Hc) as (w' & Hd & (Hc' & _ & Hf & _) & _). eauto.
  - intros commandName.
    destruct (findCommand commandName (Commands c)) as [target|] eqn:Hfind.
    + destruct (connectVPN_run w c commandName target Hc Hfind)
        as (w1 & w2 & _ & Hconn & (Hc2 & _ & Hf2 & _) & _ & _). eauto.
    + do 2 eexists. split.
      * unfold connectVPN. unfold_go. rewrite Hc, Hfind. reflexivity.
      * auto.
Qed.
(** ** More on the configuration store *)

Section ConfigStoreMore.
Context {rt : GoRuntime}.

Lemma loadConfig_cases (w : World) :
  exists r,
    loadConfig w = Some (r, w) /\
    match r with
    | inl e =>
      (exists ue, os_user w = inl ue /\
                  e = Errorf "failed to get current user: %w" [AErr ue]) \/
      (exists usr, os_user w = inr usr /\
         os_files w !! filepath_Join (HomeDir usr) ".vpn.json" = None /\
         e = Errorf "failed to read config file %s: %w"
               [AStr (filepath_Join (HomeDir usr) ".vpn.json");
                AErr (SysError ("open " +:+ filepath_Join (HomeDir usr) ".vpn.json"))]) \/
      (exists usr data je, os_user w = inr usr /\
         os_files w !! filepath_Join (HomeDir usr) ".vpn.json" = Some data /\
         json_Unmarshal data = inl je /\
         e = Errorf "failed to parse config file: %w" [AErr je])
    | inr c =>
        exists usr data raw,
          os_user w = inr usr /\
          os_files w !! filepath_Join (HomeDir usr) ".vpn.json" = Some data /\
          json_Unmarshal data = inr raw /\
          c = setDefaults raw
    end.
Proof.
  unfold loadConfig, user_Current, ReadFile. unfold_go.
  destruct (os_user w) as [ue|usr] eqn:Hu.
  { eexists. split; [reflexivity|]. left. exists ue. auto. }
  destruct (os_files w !! _) as [data|] eqn:Hf.
  2:{ eexists. split; [reflexivity|]. right. left. exists usr. auto. }
  destruct (json_Unmarshal data) as [je|raw] eqn:Hj.
  - eexists. split; [reflexivity|]. right. right. exists usr, data, je. auto.
  - eexists. split; [reflexivity|]. exists usr, data, raw. auto.
Qed.

(** The loader looks at the user and the files only. *)
Lemma loadConfig_frame (w w' : World) (r : error + Config) :
  os_user w' = os_user w ->
  os_files w' = os_files w ->
  loadConfig w = Some (r, w) ->
  loadConfig w' = Some (r, w').
Proof.
  intros Hu Hf. unfold loadConfig, user_Current, ReadFile. unfold_go. rewrite Hu.
  destruct (os_user w) as [ue|usr]; [intros [= <-]; reflexivity|].
  cbn beta iota. rewrite Hf.
  destruct (os_files w !! _) as [data|]; [|intros [= <-]; reflexivity].
  destruct (json_Unmarshal data) as [je|raw]; intros [= <-]; reflexivity.
Qed.

(** X9: [loadConfig] always returns, changes nothing, and fails in
    exactly three ways, each with its own error: the user cannot be
    determined, the file cannot be read, the file cannot be parsed. *)
Theorem loadConfig_outcomes (w : World) :
  exists r,
    loadConfig w = Some (r, w) /\
    forall e, r = inl e <->
      (exists ue, os_user w = inl ue /\
                  e = Errorf "failed to get current user: %w" [AErr ue]) \/
      (exists usr, os_user w = inr usr /\
         os_files w !! filepath_Join (HomeDir usr) ".vpn.json" = None /\
         e = Errorf "failed to read config file %s: %w"
               [AStr (filepath_Join (HomeDir usr) ".vpn.json");
                AErr (SysError ("open " +:+ filepath_Join (HomeDir usr) ".vpn.json"))]) \/
      (exists usr data je, os_user w = inr usr /\
         os_files w !! filepath_Join (HomeDir usr) ".vpn.json" = Some data /\
         json_Unmarshal data = inl je /\
         e = Errorf "failed to parse config file: %w" [AErr je]).
Proof.
  destruct (loadConfig_cases w) as (r & Hrun & Hr). exists r. split; [exact Hrun|].
  intros e. split.
  - intros ->. exact Hr.
  - intros He. destruct r as [e'|c].
    + f_equal.
      destruct Hr as [(ue & Hu & ->)|[(usr & Hu & Hf & ->)|(usr & data & je & Hu & Hf & Hj & ->)]];
      destruct He as [(ue' & Hu' & ->)|[(usr' & Hu' & Hf' & ->)|
                     (usr' & data' & je' & Hu' & Hf' & Hj' & ->)]];
      repeat match goal with
             | H : ?x = _, H' : ?x = _ |- _ => rewrite H in H'; simplify_eq
             end; reflexivity.
    + exfalso. destruct Hr as (usr & data & raw & Hu & Hf & Hj & _).
      destruct He as [(ue' & Hu' & _)|[(usr' & Hu' & Hf' & _)|
                     (usr' & data' & je' & Hu' & Hf' & Hj' & _)]];
        repeat match goal with
               | H : ?x = _, H' : ?x = _ |- _ => rewrite H in H'; simplify_eq
               end.
Qed.

Lemma setDefaults_nonzero (raw : Config) :
  let c := setDefaults raw in
  AutoSSHPath c <> EmptyString /\
  LocalPort c <> 0 /\
  Interface c <> EmptyString /\
  ServerAliveInterval (ServerOptions' c) <> 0 /\
  ServerAliveCountMax (ServerOptions' c) <> 0.
Proof.
  pose proof (setDefaults_fields raw) as (Hp & Hport & Hi & Hai & Hac & _).
  cbv zeta in *. rewrite Hp, Hport, Hi, Hai, Hac.
  repeat split.
  - destruct (String.eqb_spec (AutoSSHPath raw) EmptyString); [discriminate|assumption].
  - destruct (Z.eqb_spec (LocalPort raw) 0); [discriminate|assumption].
  - destruct (String.eqb_spec (Interface raw) EmptyString); [discriminate|assumption].
  - destruct (Z.eqb_spec (ServerAliveInterval (ServerOptions' raw)) 0);
      [discriminate|assumption].
  - destruct (Z.eqb_spec (ServerAliveCountMax (ServerOptions' raw)) 0);
      [discriminate|assumption].
Qed.

Lemma setDefaults_fixed (c : Config) :
  AutoSSHPath c <> EmptyString ->
  LocalPort c <> 0 ->
  Interface c <> EmptyString ->
  ServerAliveInterval (ServerOptions' c) <> 0 ->
  ServerAliveCountMax (ServerOptions' c) <> 0 ->
  setDefaults c = c.
Proof.
  destruct c as [p port i [ai ac] cmds]. cbn. intros Hp Hport Hi Hai Hac.
  unfold setDefaults. cbn.
  apply String.eqb_neq in Hp. rewrite Hp. cbn.
  apply Z.eqb_neq in Hport. rewrite Hport. cbn.
  apply String.eqb_neq in Hi. rewrite Hi. cbn.
  apply Z.eqb_neq in Hai. rewrite Hai. cbn.
  apply Z.eqb_neq in Hac. rewrite Hac. reflexivity.
Qed.

(** X10: in every configuration that [loadConfig] returns the supervisor
    path and the interface are not empty and both keepalive options are not
    zero; applying the defaults to it again changes nothing.  Negative
    numbers are kept: no field is checked for its sign. *)
Theorem loadConfig_fields_filled (w w' : World) (c : Config) :
  loadConfig w = Some (inr c, w') ->
  AutoSSHPath c <> EmptyString /\
  Interface c <> EmptyString /\
  ServerAliveInterval (ServerOptions' c) <> 0 /\
  ServerAliveCountMax (ServerOptions' c) <> 0 /\
  setDefaults c = c.
Proof.
  intros Hload. apply loadConfig_inv in Hload as (_ & usr & data & raw & _ & _ & _ & ->).
  pose proof (setDefaults_nonzero raw) as (Hp & Hport & Hi & Hai & Hac).
  repeat (split; [assumption|]). now apply setDefaults_fixed.
Qed.

Lemma reloadConfiguration_spec (w : World) :
  exists r,
    loadConfig w = Some (r, w) /\
    reloadConfiguration w =
    Some (tt,
          match r with
          | inl err =>
              set_log (os_log w ++ [Logged "Reloading configuration..." [];
                                    Logged "Error reloading configuration: %v" [AErr err]]) w
          | inr c =>
              set_log (os_log w ++
                       [Logged "Reloading configuration..." [];
                        Logged "Configuration reloaded successfully with %d commands"
                               [AInt (Z.of_nat (length (Commands c)))]])
                      (set_config (Some c) w)
          end).
Proof.
  destruct (loadConfig_cases w) as (r & Hrun & _). exists r. split; [exact Hrun|].
  unfold reloadConfiguration. unfold bind at 1. unfold Printf at 1.
  apply (loadConfig_log _ _ (os_log w ++ [Logged "Reloading configuration..." []]))
    in Hrun as [_ Hrun].
  unfold bind at 1. rewrite Hrun.
  destruct r as [err|c].
  - unfold Printf. cbn. rewrite <- app_assoc. reflexivity.
  - unfold bind, setConfig, Printf. cbn. rewrite <- app_assoc. reflexivity.
Qed.

(** X11: when [loadConfig] succeeds, [reloadConfiguration] makes its
    result the active configuration and logs the number of commands; it runs
    no command and touches no file, so a running tunnel and the proxy
    setting stay as they were. *)
Theorem reloadConfiguration_success (w : World) (c : Config) :
  loadConfig w = Some (inr c, w) ->
  exists w',
    reloadConfiguration w = Some (tt, w') /\
    app_config w' = Some c /\
    os_files w' = os_files w /\
    os_trace w' = os_trace w /\
    os_log w' = os_log w ++
      [Logged "Reloading configuration..." [];
       Logged "Configuration reloaded successfully with %d commands"
              [AInt (Z.of_nat (length (Commands c)))]].
Proof.
  intros Hload. destruct (reloadConfiguration_spec w) as (r & Hl & Hrun).
  assert (r = inr c) by congruence. subst r.
  eexists. split; [exact Hrun|]. cbn. auto.
Qed.

(** X12: reloading twice in a row is reloading once: the second reload
    leaves the same active configuration as the first, whether the file
    loads or not. *)
Theorem reloadConfiguration_twice (w : World) :
  exists w1 w2,
    reloadConfiguration w = Some (tt, w1) /\
    reloadConfiguration w1 = Some (tt, w2) /\
    app_config w2 = app_config w1 /\
    os_files w2 = os_files w /\
    os_trace w2 = os_trace w.
Proof.
  destruct (reloadConfiguration_spec w) as (r & Hl & Hrun).
  match type of Hrun with _ = Some (tt, ?x) => set (w1 := x) in * end.
  assert (Hl1 : loadConfig w1 = Some (r, w1)).
  { apply (loadConfig_frame w); [destruct r; reflexivity..|exact Hl]. }
  destruct (reloadConfiguration_spec w1) as (r' & Hl' & Hrun').
  assert (r' = r) by congruence. subst r'.
  exists w1. eexists. split; [exact Hrun|]. split; [exact Hrun'|].
  subst w1. destruct r; cbn; auto.
Qed.


(** X14: after the start-up of [main] the configuration is never nil: it
    is the loaded one, or the minimal one when loading failed.  Its path,
    port and interface are set; the keepalive options of the minimal one are
    zero, but it has no commands, so a configuration with commands always
    has non-zero keepalive options. *)
Theorem mainSetup_configuration (w : World) :
  exists r c w',
    loadConfig w = Some (r, w) /\
    mainSetup w = Some (tt, w') /\
    app_config w' = Some c /\
    c = match r with inl _ => minimalConfig | inr loaded => loaded end /\
    os_files w' = os_files w /\
    os_trace w' = os_trace w /\
    AutoSSHPath c <> EmptyString /\
    LocalPort c <> 0 /\
    Interface c <> EmptyString /\
    (Commands c <> [] ->
     ServerAliveInterval (ServerOptions' c) <> 0 /\
     ServerAliveCountMax (ServerOptions' c) <> 0).
Proof.
  destruct (loadConfig_cases w) as (r & Hrun & Hr). exists r.
  unfold mainSetup. unfold bind at 1. rewrite Hrun.
  destruct r as [err|c].
  - exists minimalConfig. unfold_go. unfold setConfig. eexists.
    split; [reflexivity|]. split; [reflexivity|]. cbn.
    repeat split; try discriminate; try reflexivity; congruence.
  - destruct Hr as (usr & data & raw & _ & _ & _ & ->).
    pose proof (setDefaults_nonzero raw) as (Hp & Hport & Hi & Hai & Hac).
    exists (setDefaults raw). unfold setConfig. eexists.
    split; [reflexivity|]. split; [reflexivity|]. cbn. auto 10.
Qed.

End ConfigStoreMore.
(** ** The editor helper *)

Section Editor.
Context {rt : GoRuntime} {host : Host}.

(** [editConfiguration] once the configuration file is in place: [w1] is the
    world after the check for the file and, if it was missing, after the
    template was written. *)
Lemma editConfiguration_run (w w1 : World) (usr : User) :
  os_user w = inr usr ->
  let configPath := filepath_Join (HomeDir usr) ".vpn.json" in
  (if negb (isSome (os_files w !! configPath)) then
     Printf "Configuration file doesn't exist, creating dummy configuration..." [] ;;;
     createDummyConfig configPath
   else ret None) w = Some (None, w1) ->
  let name := fst (editorCommand foundEditor configPath) in
  let cmd := snd (editorCommand foundEditor configPath) in
  let started := startError (exec_err (os_exec w1 (os_trace w1) cmd)) in
  editConfiguration w =
  Some (match started with
        | Some err => (Some (Errorf "failed to open editor: %w" [AErr err]), None)
        | None => (None, Some (if isTerminalEditor name then ReloadAfterExit cmd
                               else MonitorConfigFile configPath))
        end,
        set_trace (os_trace w1 ++ [cmd])
          (set_log (os_log w1 ++ [Logged "Opening configuration file with %s..." [AStr name]])
                   w1)).
Proof.
  intros Hu configPath Hstep name cmd started.
  unfold editConfiguration. unfold bind at 1. unfold user_Current at 1. rewrite Hu.
  fold configPath. unfold bind at 1. unfold Stat_IsNotExist at 1.
  unfold bind at 1. rewrite Hstep.
  fold (@foundEditor host).
  destruct (editorCommand foundEditor configPath) as [name' cmd'] eqn:He.
  subst name cmd started. cbn [fst snd].
  unfold Start. unfold_go. cbn.
  destruct (exec_err (os_exec w1 (os_trace w1) cmd')) as [[ws|msg|f a]|]; reflexivity.
Qed.

(** X15: [editConfiguration] never overwrites a configuration file that
    exists: the files and the active configuration are unchanged, and
    exactly one command, the editor, is started. *)
Theorem editConfiguration_keeps_existing_file (w : World) (usr : User) (data : string) :
  os_user w = inr usr ->
  os_files w !! filepath_Join (HomeDir usr) ".vpn.json" = Some data ->
  exists r w' cmd,
    editConfiguration w = Some (r, w') /\
    os_files w' = os_files w /\
    app_config w' = app_config w /\
    os_trace w' = os_trace w ++ [cmd].
Proof.
  intros Hu Hf.
  pose proof (editConfiguration_run w w usr Hu) as Hrun. cbv zeta in Hrun.
  rewrite Hf in Hrun. specialize (Hrun eq_refl).
  do 3 eexists. split; [exact Hrun|]. cbn. auto.
Qed.


(** X17: the first-run workflow.  On a machine without a configuration
    file, [editConfiguration] followed by [reloadConfiguration] makes the
    template the active configuration, for any encoder and decoder that
    agree on the template. *)
Theorem editConfiguration_first_run_then_reload (w : World) (usr : User) :
  (forall data, json_MarshalIndent dummyConfig = inr data ->
                json_Unmarshal data = inr dummyConfig) ->
  os_user w = inr usr ->
  let configPath := filepath_Join (HomeDir usr) ".vpn.json" in
  os_files w !! configPath = None ->
  os_write_ok w configPath = true ->
  (exists data, json_MarshalIndent dummyConfig = inr data) ->
  exists r w1 w2,
    editConfiguration w = Some (r, w1) /\
    reloadConfiguration w1 = Some (tt, w2) /\
    app_config w2 = Some dummyConfig.
Proof.
  intros Hrt Hu configPath Hf Hwr (data & Hm).
  assert (Hstep : exists w0,
    (if negb (isSome (os_files w !! configPath)) then
       Printf "Configuration file doesn't exist, creating dummy configuration..." [] ;;;
       createDummyConfig configPath
     else ret None) w = Some (None, w0) /\
    os_user w0 = inr usr /\ os_files w0 !! configPath = Some data).
  { rewrite Hf. cbn [isSome negb]. unfold createDummyConfig. rewrite Hm.
    unfold WriteFile. unfold_go. cbn. rewrite Hwr.
    eexists. split; [reflexivity|]. cbn. split; [exact Hu|]. apply lookup_insert_eq. }
  destruct Hstep as (w0 & Hstep & Hu0 & Hf0).
  pose proof (editConfiguration_run w w0 usr Hu Hstep) as Hrun. cbv zeta in Hrun.
  do 2 eexists.
  match type of Hrun with _ = Some (_, ?x) => set (w1 := x) in * end.
  assert (Hl : loadConfig w1 = Some (inr dummyConfig, w1)).
  { apply (loadConfig_ok w1 usr data dummyConfig); [exact Hu0|exact Hf0|now apply Hrt]. }
  destruct (reloadConfiguration_spec w1) as (r' & Hl' & Hre).
  assert (r' = inr dummyConfig) by congruence. subst r'.
  eexists. split; [exact Hrun|]. split; [exact Hre|]. reflexivity.
Qed.

End Editor.

(** X18: the EDITOR variable is read and never used: two environments
    that find the same editors on the PATH get the same result, whatever
    their variables. *)
Theorem editConfiguration_ignores_EDITOR {rt : GoRuntime} (h1 h2 : Host) (w : World) :
  (forall ed, In ed editors ->
     exec_LookPath (Host := h1) ed = exec_LookPath (Host := h2) ed) ->
  editConfiguration (host := h1) w = editConfiguration (host := h2) w.
Proof.
  intros Hsame.
  assert (Hfind : find (exec_LookPath (Host := h1)) editors
                  = find (exec_LookPath (Host := h2)) editors).
  { unfold editors in *. 
    repeat (cbn [find]; rewrite <- Hsame by (cbn; auto 10);
            destruct (exec_LookPath (Host := h1) _); [reflexivity|]).
    reflexivity. }
  unfold editConfiguration. rewrite Hfind. reflexivity.
Qed.
(** ** The tray *)

Section TrayProps.
Context {rt : GoRuntime} {host : Host}.

(** The loop over the candidates looks at the first non-empty one only. *)
Lemma tryResources_spec (connected : bool) (candidates : list string) (t : Tray) :
  tryResources connected candidates t =
  match find (fun rdir => negb (String.eqb rdir EmptyString)) candidates with
  | None => Some (false, t)
  | Some rdir =>
      match os_files (tray_world t) !! filepath_Join rdir (statusImage connected) with
      | Some iconBytes =>
          Some (true, mkTray (tray_world t) (statusTooltip connected) EmptyString
                             (Some iconBytes) (tray_menu t) (disconnectItem t))
      | None =>
          Some (true, mkTray (tray_world t) (statusTooltip connected)
                             (statusGlyph connected) (tray_icon t) (tray_menu t)
                             (disconnectItem t))
      end
  end.
Proof.
  induction candidates as [|rdir rest IH]; cbn [tryResources find]; [reflexivity|].
  destruct (String.eqb rdir EmptyString) eqn:He; cbn [negb]; [exact IH|].
  unfold statusImage, statusTooltip, statusGlyph.
  unfold tbind at 1. unfold liftW, ReadFile.
  destruct (os_files (tray_world t) !! _) as [bytes|]; unfold_tray; cbn;
    destruct t; reflexivity.
Qed.
End TrayProps.

Section TrayProps2.
Context {rt : GoRuntime} {host : Host}.

(** [updateIcon] from the verdict of its probe. *)
Lemma updateIcon_spec (t : Tray) (usr : User) (b : bool) (w' : World) :
  os_user (tray_world t) = inr usr ->
  isVPNConnected (tray_world t) = Some (b, w') ->
  updateIcon t =
  Some (tt,
        let image :=
          match resourcesDir usr with
          | Some rdir => os_files (tray_world t) !! filepath_Join rdir (statusImage b)
          | None => None
          end in
        mkTray w' (statusTooltip b)
               (match image with Some _ => EmptyString | None => statusGlyph b end)
               (match image with Some iconBytes => Some iconBytes | None => tray_icon t end)
               (match disconnectItem t with
                | Some i => alter (setDisabled (negb b)) i (tray_menu t)
                | None => tray_menu t
                end)
               (disconnectItem t)).
Proof.
  intros Hu Hprobe.
  destruct (isVPNConnected_spec (tray_world t)) as (b0 & w0 & Hrun & (_ & Hu' & Hf' & _) & _).
  assert (b0 = b /\ w0 = w') as [-> ->] by (split; congruence).
  unfold updateIcon. unfold tbind at 1. unfold liftW at 1. rewrite Hprobe.
  unfold tbind at 1. unfold liftW at 1, user_Current. cbn [tray_world set_world].
  rewrite Hu', Hu.
  unfold tbind at 1. fold (resourcesCandidates usr). rewrite tryResources_spec.
  fold (resourcesDir usr). cbn [tray_world set_world]. rewrite Hf'.
  cbv zeta. destruct t as [w tip title icon menu item]. cbn [tray_world] in *.
  destruct (resourcesDir usr) as [rdir|].
  - destruct (os_files w !! _) as [bytes|];
      unfold_tray; unfold set_menu, set_world; cbn; destruct item, b; reflexivity.
  - unfold_tray; unfold set_menu, set_world; cbn; destruct item, b; reflexivity.
Qed.

End TrayProps2.

Section TrayProps3.
Context {rt : GoRuntime} {host : Host}.

(** X19: after [updateIcon] the tooltip names the verdict of the probe it
    ran, and the Disconnect item, if there is one, is enabled exactly when
    that verdict is Connected; no other entry of the menu changes. *)
Theorem updateIcon_reflects_probe (t : Tray) (usr : User) :
  os_user (tray_world t) = inr usr ->
  exists b t',
    isVPNConnected (tray_world t) = Some (b, tray_world t') /\
    updateIcon t = Some (tt, t') /\
    tray_tooltip t' = statusTooltip b /\
    disconnectItem t' = disconnectItem t /\
    tray_menu t' =
      match disconnectItem t with
      | Some i => alter (setDisabled (negb b)) i (tray_menu t)
      | None => tray_menu t
      end.
Proof.
  intros Hu.
  destruct (isVPNConnected_spec (tray_world t)) as (b & w' & Hrun & _).
  exists b. eexists. split; [|split; [exact (updateIcon_spec t usr b w' Hu Hrun)|]].
  - exact Hrun.
  - cbn. auto.
Qed.

(** X20: only the first candidate directory is ever consulted.  If the
    Resources directory beside the executable's directory is a non-empty
    path, the image is read from there: found, it becomes the icon and the
    title is cleared; not found, the title becomes the globe and the icon
    set before stays. *)
Theorem updateIcon_first_candidate_decides (t : Tray) (usr : User) :
  os_user (tray_world t) = inr usr ->
  let baseDir :=
    match os_Executable with
    | inr exePath => filepath_Dir exePath
    | inl _ => EmptyString
    end in
  let rdir := filepath_Join baseDir "../Resources" in
  rdir <> EmptyString ->
  exists b t',
    isVPNConnected (tray_world t) = Some (b, tray_world t') /\
    updateIcon t = Some (tt, t') /\
    match os_files (tray_world t) !! filepath_Join rdir (statusImage b) with
    | Some iconBytes => tray_icon t' = Some iconBytes /\ tray_title t' = EmptyString
    | None => tray_icon t' = tray_icon t /\ tray_title t' = statusGlyph b
    end.
Proof.
  intros Hu baseDir rdir Hne.
  destruct (isVPNConnected_spec (tray_world t)) as (b & w' & Hrun & _).
  exists b. eexists. split; [|split; [exact (updateIcon_spec t usr b w' Hu Hrun)|]].
  - exact Hrun.
  - assert (Hdir : resourcesDir usr = Some rdir).
    { unfold resourcesDir, resourcesCandidates. fold baseDir. fold rdir. cbn [find].
      apply String.eqb_neq in Hne. now rewrite Hne. }
    cbv zeta. rewrite Hdir.
    destruct (os_files (tray_world t) !! _); cbn; auto.
Qed.

Lemma addCommandItems_spec (cmds : list Command) (t : Tray) :
  addCommandItems cmds t = Some (tt, set_menu (tray_menu t ++ map commandItem cmds) t).
Proof.
  revert t. induction cmds as [|cmd cmds IH]; intros t; cbn [addCommandItems map].
  - unfold tret, set_menu. rewrite app_nil_r. destruct t; reflexivity.
  - unfold tbind, AddMenuItem. rewrite IH. unfold set_menu. cbn.
    rewrite <- app_assoc. reflexivity.
Qed.

Lemma alter_last {A} (f : A -> A) (l : list A) (x : A) :
  alter f (length l) (l ++ [x]) = l ++ [f x].
Proof.
  replace (length l) with (length l + 0)%nat by lia. now rewrite alter_app_r.
Qed.

(** [buildMenu] from the verdict of its probe. *)
Lemma buildMenu_spec (t : Tray) (c : Config) (b : bool) (w' : World) :
  app_config (tray_world t) = Some c ->
  isVPNConnected (tray_world t) = Some (b, w') ->
  buildMenu t =
  Some (tt,
        mkTray w' (tray_tooltip t) (tray_title t) (tray_icon t)
               (tray_menu t ++ map commandItem (Commands c)
                  ++ (if (0 <? length (Commands c))%nat then [Separator] else [])
                  ++ fixedEntries (negb b))
               (Some (length (tray_menu t) + length (Commands c)
                      + (if (0 <? length (Commands c))%nat then 1 else 0))%nat)).
Proof.
  intros Hc Hprobe. destruct t as [w tip title icon menu item]. cbn [tray_world] in *.
  unfold buildMenu. unfold tbind at 1. unfold liftW at 1, derefConfig. cbn [tray_world].
  rewrite Hc. unfold tbind at 1. rewrite addCommandItems_spec.
  unfold tbind at 1. unfold liftW at 1. cbn [tray_world set_world set_menu]. rewrite Hc.
  destruct (0 <? length (Commands c))%nat;
    unfold_tray; unfold set_menu, set_world;
    cbn [tray_world tray_tooltip tray_title tray_icon tray_menu disconnectItem];
    rewrite Hprobe;
    cbn [tray_world tray_tooltip tray_title tray_icon tray_menu disconnectItem negb];
    rewrite ?length_app, ?length_map; cbn [length];
    destruct b; cbn [negb];
    cbn [tray_world tray_tooltip tray_title tray_icon tray_menu disconnectItem];
    rewrite ?Nat.add_0_r.
  - repeat rewrite <- app_assoc. reflexivity.
  - replace (length menu + length (Commands c) + 1)%nat
      with (length ((menu ++ map commandItem (Commands c)) ++ [Separator]))
      by (rewrite !length_app, length_map; cbn; lia).
    rewrite alter_last. repeat rewrite <- app_assoc. reflexivity.
  - repeat rewrite <- app_assoc. reflexivity.
  - replace (length menu + length (Commands c))%nat
      with (length (menu ++ map commandItem (Commands c)))
      by (rewrite !length_app, length_map; cbn; lia).
    rewrite alter_last. repeat rewrite <- app_assoc. reflexivity.
Qed.

End TrayProps3.

Section TrayProps4.
Context {rt : GoRuntime} {host : Host}.

(** X21: the menu that [buildMenu] adds.  The command at position k of
    the configuration gets the item at position k after the entries already
    there, titled by its description and listening for its name; the
    [disconnectItem] field points at the Disconnect item, which is disabled
    exactly when the probe says Disconnected; the menu grows by the number
    of commands, a separator if there are any, and five entries. *)
Theorem buildMenu_layout (t : Tray) (c : Config) :
  app_config (tray_world t) = Some c ->
  exists b t' i,
    isVPNConnected (tray_world t) = Some (b, tray_world t') /\
    buildMenu t = Some (tt, t') /\
    (forall k cmd, Commands c !! k = Some cmd ->
       tray_menu t' !! (length (tray_menu t) + k)%nat = Some (commandItem cmd)) /\
    disconnectItem t' = Some i /\
    tray_menu t' !! i =
      Some (Item (mkMenuItem "Disconnect" "Disconnect from VPN" (negb b)) DisconnectNow) /\
    length (tray_menu t') =
      (length (tray_menu t) + length (Commands c)
       + (if (0 <? length (Commands c))%nat then 1 else 0) + 5)%nat.
Proof.
  intros Hc.
  destruct (isVPNConnected_spec (tray_world t)) as (b & w' & Hrun & _).
  exists b. do 2 eexists.
  split; [|split; [exact (buildMenu_spec t c b w' Hc Hrun)|]]; [exact Hrun|].
  cbn [tray_menu disconnectItem].
  set (sep := if (0 <? length (Commands c))%nat then [Separator] else []).
  assert (Hsep : length sep = if (0 <? length (Commands c))%nat then 1%nat else 0%nat).
  { subst sep. destruct (0 <? length (Commands c))%nat; reflexivity. }
  split; [|split; [reflexivity|split]].
  - intros k cmd Hk.
    rewrite lookup_app_r by lia.
    replace (length (tray_menu t) + k - length (tray_menu t))%nat with k by lia.
    rewrite lookup_app_l by (rewrite length_map; now apply lookup_lt_Some in Hk).
    rewrite list_lookup_fmap, Hk. reflexivity.
  - rewrite <- Hsep.
    rewrite lookup_app_r by lia.
    rewrite lookup_app_r by (rewrite length_map; lia).
    rewrite lookup_app_r by (rewrite length_map; lia).
    rewrite length_map.
    replace (_ - _ - _ - _)%nat with 0%nat by lia. reflexivity.
  - rewrite !length_app, length_map, Hsep. cbn. lia.
Qed.

(** X22: when the current user cannot be determined, the start-up of
    [main] falls back to the minimal configuration, and [onReady] then
    panics in [updateIcon], which ignores the error of the user lookup. *)
Theorem startup_without_user_panics (w : World) (e : error) :
  os_user w = inl e ->
  exists w',
    mainSetup w = Some (tt, w') /\
    app_config w' = Some minimalConfig /\
    forall t, tray_world t = w' -> onReady t = None.
Proof.
  intros Hu.
  assert (Hl : loadConfig w
               = Some (inl (Errorf "failed to get current user: %w" [AErr e]), w)).
  { unfold loadConfig, user_Current. unfold_go. now rewrite Hu. }
  unfold mainSetup. unfold bind at 1. rewrite Hl. unfold bind, Printf, setConfig.
  eexists. split; [reflexivity|]. split; [reflexivity|].
  intros t Ht.
  unfold onReady. unfold tbind at 1. unfold SetTooltip at 1.
  set (t1 := mkTray _ _ _ _ _ _).
  assert (Hc1 : app_config (tray_world t1) = Some minimalConfig) by (cbn; now rewrite Ht).
  assert (Hu1 : os_user (tray_world t1) = inl e) by (cbn; now rewrite Ht).
  destruct (isVPNConnected_spec (tray_world t1)) as (b & w2 & Hp1 & (_ & Hu2 & _) & _).
  unfold tbind at 1. rewrite (buildMenu_spec t1 minimalConfig b w2 Hc1 Hp1).
  set (t2 := mkTray _ _ _ _ _ _).
  destruct (isVPNConnected_spec (tray_world t2)) as (b3 & w3 & Hp3 & (_ & Hu3 & _) & _).
  unfold updateIcon. unfold tbind at 1. unfold liftW at 1. rewrite Hp3.
  unfold tbind at 1. unfold liftW at 1, user_Current. cbn [tray_world set_world].
  rewrite Hu3. cbn [tray_world t2]. rewrite Hu2, Hu1. reflexivity.
Qed.

End TrayProps4.

(** ** Polling after a disconnect *)

Lemma probesIn_app (r1 r2 : list Invocation) :
  probesIn (r1 ++ r2) = (probesIn r1 + probesIn r2)%nat.
Proof. apply count_occ_app. Qed.

(** One probe: its run counts as one, is at most three commands long, and
    the world keeps its configuration, user, files and oracle. *)
Lemma isVPNConnected_one_probe (w : World) :
  exists b w' run,
    isVPNConnected w = Some (b, w') /\
    (app_config w' = app_config w /\ os_user w' = os_user w /\
     os_files w' = os_files w /\ os_write_ok w' = os_write_ok w /\
     os_exec w' = os_exec w) /\
    os_trace w' = os_trace w ++ run /\
    probesIn run = 1%nat /\
    (length run <= 3)%nat.
Proof.
  destruct (isVPNConnected_spec w) as (b & w' & Hrun & Hframe & Hcases).
  exists b, w'.
  destruct Hcases as [(_ & _ & Ht)|[(_ & _ & _ & Ht)|[(_ & _ & _ & _ & Ht)|
                     (_ & _ & c & _ & _ & _ & Ht)]]];
    eexists; (split; [exact Hrun|]); (split; [exact Hframe|]);
    (split; [exact Ht|]); split; try (cbn; lia);
    unfold probesIn; cbn [count_occ];
    repeat (destruct (Invocation_eq_dec _ _) as [Heq|Hne];
            [try discriminate Heq|try congruence]);
    try reflexivity.
Qed.

Lemma waitForExit_spec (n : nat) (w : World) :
  exists w' run,
    waitForExit n w = Some (tt, w') /\
    (app_config w' = app_config w /\ os_user w' = os_user w /\
     os_files w' = os_files w /\ os_write_ok w' = os_write_ok w /\
     os_exec w' = os_exec w) /\
    os_trace w' = os_trace w ++ run /\
    (probesIn run <= n)%nat /\
    (Nat.min 1 n <= probesIn run)%nat /\
    (length run <= 3 * n)%nat /\
    (forall w1, isVPNConnected w = Some (false, w1) -> (1 <= n)%nat -> w' = w1).
Proof.
  revert w. induction n as [|n IH]; intros w.
  - exists w, []. cbn. rewrite app_nil_r. repeat split; auto; lia.
  - destruct (isVPNConnected_one_probe w)
      as (b & w1 & run1 & Hp & (Hc & Hu & Hf & Hw & Hex) & Ht & Hn & Hlen).
    cbn [waitForExit]. unfold bind at 1. rewrite Hp.
    destruct b; cbn [negb].
    + destruct (IH w1) as (w' & run & Hrun & (Hc' & Hu' & Hf' & Hw' & Hex') & Ht' & Hle & Hge
                           & Hlen' & _).
      exists w', (run1 ++ run). split; [exact Hrun|].
      split; [repeat split; congruence|].
      split; [rewrite Ht', Ht, <- app_assoc; reflexivity|].
      rewrite probesIn_app, length_app, Hn.
      repeat split; try lia.
      intros w1' Hp' _. congruence.
    + exists w1, run1. unfold ret. split; [reflexivity|].
      split; [auto 10|]. split; [exact Ht|].
      rewrite Hn. repeat split; try lia.
      intros w1' Hp' _. congruence.
Qed.


Section TrayProps5.
Context {rt : GoRuntime} {host : Host}.

Lemma disconnect_run_probes (c : Config) (tl : list Invocation) :
  tl = [] \/ tl = [pgrepAutossh] \/ tl = [pgrepAutossh; pkill9Autossh] ->
  probesIn (proxyOff (Interface c) :: pkillAutossh :: tl) = 0%nat.
Proof.
  intros [->|[->| ->]]; unfold probesIn; cbn [count_occ];
    repeat (destruct (Invocation_eq_dec _ _) as [Heq|Hne]; [discriminate Heq|]);
    reflexivity.
Qed.

Lemma setDisabled_twice (d d' : bool) (e : MenuEntry) :
  setDisabled d (setDisabled d' e) = setDisabled d e.
Proof. destruct e; reflexivity. Qed.

(** X24: a click on Disconnect.  The handler always completes: it kills
    autossh, probes at least twice and at most twenty-one times (twenty
    polls and the one of [updateIcon]), and leaves the Disconnect item
    enabled exactly when the last probe still says Connected, with the
    tooltip saying the same. *)
Theorem onDisconnectClicked_settles (t : Tray) (c : Config) (usr : User) (i : nat) :
  app_config (tray_world t) = Some c ->
  os_user (tray_world t) = inr usr ->
  disconnectItem t = Some i ->
  exists w1 b t' run,
    onDisconnectClicked t = Some (tt, t') /\
    isVPNConnected w1 = Some (b, tray_world t') /\
    tray_menu t' = alter (setDisabled (negb b)) i (tray_menu t) /\
    tray_tooltip t' = statusTooltip b /\
    os_trace (tray_world t') = os_trace (tray_world t) ++ run /\
    In pkillAutossh run /\
    (2 <= probesIn run <= 21)%nat.
Proof.
  intros Hc Hu Hi.
  destruct t as [w tip title icon menu item]. cbn [tray_world disconnectItem tray_menu] in *.
  subst item.
  destruct (disconnectVPN_spec w c Hc)
    as (wd & Hd & Hcd & Hexd & Hfd & Hud & tl & Htd & _ & Htl).
  destruct (waitForExit_spec 20 wd)
    as (ww & runw & Hw & (Hcw & Huw & Hfw & _ & Hexw) & Htw & Hle & Hge & _ & _).
  set (wl := set_log (os_log ww ++
               [Logged "Disconnected (or timed out waiting for process to exit)" []]) ww).
  destruct (isVPNConnected_one_probe wl)
    as (b & wf & runf & Hp & _ & Htf & Hnf & _).
  exists wl, b.
  unfold onDisconnectClicked. unfold tbind at 1. unfold derefDisconnectItem at 1.
  cbn [disconnectItem]. unfold tbind at 1. unfold Disable at 1.
  unfold tbind at 1. unfold liftW at 1. cbn [tray_world set_menu]. rewrite Hd.
  unfold tbind at 1. unfold liftW at 1. cbn [tray_world set_world]. rewrite Hw.
  unfold tbind at 1. unfold liftW at 1, Printf. cbn [tray_world set_world].
  fold wl.
  set (t3 := set_world wl _).
  assert (Hu3 : os_user (tray_world t3) = inr usr).
  { cbn. congruence. }
  rewrite (updateIcon_spec t3 usr b wf Hu3 Hp).
  do 2 eexists. split; [reflexivity|]. cbn.
  split; [exact Hp|].
  split; [rewrite list_alter_alter_eq; apply list_alter_ext; [|reflexivity];
          intros x _; apply setDisabled_twice|].
  split; [reflexivity|].
  split; [rewrite Htf; cbn; rewrite Htw, Htd, <- !app_assoc; reflexivity|].
  split; [cbn; right; now left|].
  cbn [app]. 
  change (proxyOff (Interface c) :: pkillAutossh :: tl ++ runw ++ runf)
    with ((proxyOff (Interface c) :: pkillAutossh :: tl) ++ runw ++ runf).
  rewrite !probesIn_app, (disconnect_run_probes c tl Htl), Hnf. cbn in Hge. lia.
Qed.

(** X25: a click on a connect item whose supervisor fails to start.  The
    previous tunnel has been killed by then, yet the handler only logs the
    error: menu, tooltip, title and icon stay as they were until the next
    refresh. *)
Theorem onConnectClicked_failed_start_keeps_tray (t : Tray) (c : Config)
    (commandName : string) (target : Command) (w1 : World) (e : error) :
  app_config (tray_world t) = Some c ->
  findCommand commandName (Commands c) = Some target ->
  disconnectVPN (tray_world t) = Some (None, w1) ->
  exec_err (os_exec (tray_world t) (os_trace w1) (spawn c (Server target))) = Some e ->
  exists t',
    onConnectClicked commandName t = Some (tt, t') /\
    tray_menu t' = tray_menu t /\
    tray_tooltip t' = tray_tooltip t /\
    tray_title t' = tray_title t /\
    tray_icon t' = tray_icon t /\
    In pkillAutossh (os_trace (tray_world t')) /\
    os_log (tray_world t') =
      os_log w1 ++ [Logged "Error connecting to %s: %v"
                      [AStr commandName;
                       AErr (Errorf "failed to start autossh: %w" [AErr e])]].
Proof.
  intros Hc Hfind Hd Hs.
  destruct (connectVPN_run (tray_world t) c commandName target Hc Hfind)
    as (w1' & w2 & Hd' & Hconn & _ & Htr & Hlog).
  assert (w1' = w1) by congruence. subst w1'.
  cbv zeta in Hconn, Htr. rewrite Hs in Hconn, Htr. cbn [connectOutcome] in Hconn.
  destruct (disconnectVPN_spec (tray_world t) c Hc)
    as (wd & Hd2 & _ & _ & _ & _ & tl & Htd & _).
  assert (wd = w1) by congruence. subst wd.
  unfold onConnectClicked. unfold tbind at 1. unfold liftW at 1. rewrite Hconn.
  unfold liftW, Printf. cbn [tray_world set_world].
  eexists. split; [reflexivity|]. cbn.
  repeat (split; [reflexivity|]).
  split.
  - rewrite Htr, Htd. rewrite !in_app_iff. left. right. cbn. auto.
  - now rewrite Hlog.
Qed.

End TrayProps5.

Section EditorChoice.
Context {rt : GoRuntime} {host : Host}.

(** X26: which editor is started.  A graphical editor (code, subl, atom,
    in this order) is started on the file whenever one is on the PATH; the
    Terminal script is used exactly when none of them is and nano or vim is;
    [open -e] exactly when none of the five is. *)
Theorem editConfiguration_editor_precedence (w : World) (usr : User) (data : string) :
  os_user w = inr usr ->
  let configPath := filepath_Join (HomeDir usr) ".vpn.json" in
  os_files w !! configPath = Some data ->
  exists r w' cmd,
    editConfiguration w = Some (r, w') /\
    os_trace w' = os_trace w ++ [cmd] /\
    (forall ed, In ed ["code"; "subl"; "atom"] ->
       find exec_LookPath editors = Some ed -> cmd = Cmd ed [configPath]) /\
    (cmd_path cmd = "osascript" <->
     exec_LookPath "code" = false /\ exec_LookPath "subl" = false /\
     exec_LookPath "atom" = false /\
     (exec_LookPath "nano" = true \/ exec_LookPath "vim" = true)) /\
    (cmd = Cmd "open" ["-e"; configPath] <->
     forall ed, In ed editors -> exec_LookPath ed = false).
Proof.
  intros Hu configPath Hf.
  pose proof (editConfiguration_run w w usr Hu) as Hrun. cbv zeta in Hrun.
  fold configPath in Hrun. rewrite Hf in Hrun. specialize (Hrun eq_refl).
  do 3 eexists. split; [exact Hrun|]. split; [reflexivity|].
  unfold foundEditor, editors. cbn [find].
  destruct (exec_LookPath "code") eqn:H1; [|destruct (exec_LookPath "subl") eqn:H2;
    [|destruct (exec_LookPath "atom") eqn:H3; [|destruct (exec_LookPath "nano") eqn:H4;
      [|destruct (exec_LookPath "vim") eqn:H5]]]]; cbn.
  all: split;
    [ intros ed Hin Hed;
      first [ discriminate Hed
            | injection Hed as <-;
              first [ reflexivity | cbn in Hin; intuition discriminate ] ]
    | split; split ].
  all: try (intros Hp; discriminate Hp).
  all: try (intros _; auto 10; fail).
  all: try (intros (Ha & Hb & Hc' & [Hd|Hd]); congruence).
  all: try reflexivity.
  all: try (intros _ ed Hin; cbn in Hin;
            destruct Hin as [<-|[<-|[<-|[<-|[<-|[]]]]]]; assumption).
  all: intros Hall; exfalso.
  - specialize (Hall "code"). cbn in Hall. intuition congruence.
  - specialize (Hall "subl"). cbn in Hall. intuition congruence.
  - specialize (Hall "atom"). cbn in Hall. intuition congruence.
  - specialize (Hall "nano"). cbn in Hall. intuition congruence.
  - specialize (Hall "vim"). cbn in Hall. intuition congruence.
Qed.

End EditorChoice.

Section StartupThenSupervisor.
Context {rt : GoRuntime}.

(** X27: after the start-up of [main] a disconnect never panics, and when
    loading had failed every connect returns the not-found error without
    running anything. *)
Theorem mainSetup_then_supervisor (w : World) :
  exists w',
    mainSetup w = Some (tt, w') /\
    (exists w'', disconnectVPN w' = Some (None, w'')) /\
    (forall e, loadConfig w = Some (inl e, w) ->
     forall commandName,
       connectVPN commandName w' =
       Some (Some (Errorf "command '%s' not found in configuration" [AStr commandName]), w')).
Proof.
  destruct (loadConfig_cases w) as (r & Hrun & _).
  unfold mainSetup. unfold bind at 1. rewrite Hrun.
  destruct r as [err|c].
  - unfold bind, Printf, setConfig. eexists. split; [reflexivity|]. split.
    + match goal with |- context [disconnectVPN ?x] =>
        destruct (disconnectVPN_exact x minimalConfig eq_refl) as (w'' & Hd & _) end.
      eauto.
    + intros e _ commandName. reflexivity.
  - unfold setConfig. eexists. split; [reflexivity|]. split.
    + match goal with |- context [disconnectVPN ?x] =>
        destruct (disconnectVPN_exact x c eq_refl) as (w'' & Hd & _) end.
      eauto.
    + intros e He. congruence.
Qed.

End StartupThenSupervisor.

(** ** Concrete runs of the properties above *)

Lemma disconnectVPN_escalation_witness :
  app_config stubbornWorld = Some officeConfig /\
  exists w',
    disconnectVPN stubbornWorld = Some (None, w') /\
    os_trace w' = [proxyOff "Wi-Fi"; pkillAutossh; pgrepAutossh; pkill9Autossh].
Proof.
  split; [reflexivity|].
  exact (disconnectVPN_escalation stubbornWorld officeConfig eq_refl).
Defined.

Lemma connectVPN_succeeds_iff_witness :
  app_config quietWorld = Some officeConfig /\
  exists r w2,
    connectVPN "office" quietWorld = Some (r, w2) /\
    (r = None <->
     exists target w1,
       findCommand "office" (Commands officeConfig) = Some target /\
       disconnectVPN quietWorld = Some (None, w1) /\
       exec_err (os_exec quietWorld (os_trace w1) (spawn officeConfig (Server target)))
         = None /\
       exec_err (os_exec quietWorld (os_trace w1 ++ [spawn officeConfig (Server target)])
                         (proxyOn officeConfig)) = None).
Proof.
  split; [reflexivity|].
  exact (connectVPN_succeeds_iff quietWorld officeConfig "office" eq_refl).
Defined.

Lemma connectVPN_first_match_witness :
  app_config duplicateWorld = Some duplicateConfig /\
  Commands duplicateConfig = [homeProfile] ++ officeFirst :: [officeSecond] /\
  ~ In "office" (map Name [homeProfile]) /\
  Name officeFirst = "office" /\
  exists w1 r w2 rest,
    disconnectVPN duplicateWorld = Some (None, w1) /\
    connectVPN "office" duplicateWorld = Some (r, w2) /\
    os_trace w2 = os_trace w1 ++ spawn duplicateConfig "office.example.com" :: rest /\
    (rest = [] \/ rest = [proxyOn duplicateConfig]).
Proof.
  assert (Hnot : ~ In "office" (map Name [homeProfile])).
  { cbn. intros [H|[]]. discriminate H. }
  split; [reflexivity|]. split; [reflexivity|]. split; [exact Hnot|]. split; [reflexivity|].
  exact (connectVPN_first_match duplicateWorld duplicateConfig "office"
           [homeProfile] [officeSecond] officeFirst eq_refl eq_refl Hnot eq_refl).
Defined.

Lemma connectVPN_twice_kills_between_witness :
  app_config duplicateWorld = Some duplicateConfig /\
  findCommand "home" (Commands duplicateConfig) = Some homeProfile /\
  findCommand "office" (Commands duplicateConfig) = Some officeFirst /\
  exists r1 w1 r2 w2 before between after,
    connectVPN "home" duplicateWorld = Some (r1, w1) /\
    connectVPN "office" w1 = Some (r2, w2) /\
    os_trace w2 =
      os_trace duplicateWorld ++ before ++ spawn duplicateConfig "home.example.com"
        :: between ++ spawn duplicateConfig "office.example.com" :: after /\
    In (proxyOff "Wi-Fi") between /\
    In pkillAutossh between /\
    ~ In (spawn duplicateConfig "home.example.com") before.
Proof.
  split; [reflexivity|]. split; [reflexivity|]. split; [reflexivity|].
  exact (connectVPN_twice_kills_between duplicateWorld duplicateConfig "home" "office"
           homeProfile officeFirst eq_refl eq_refl eq_refl).
Defined.

Lemma supervisor_keeps_configuration_witness :
  app_config quietWorld = Some officeConfig /\
  (exists w', disconnectVPN quietWorld = Some (None, w') /\
              app_config w' = Some officeConfig /\ os_files w' = os_files quietWorld) /\
  (forall commandName, exists r w',
     connectVPN commandName quietWorld = Some (r, w') /\
     app_config w' = Some officeConfig /\ os_files w' = os_files quietWorld).
Proof.
  split; [reflexivity|].
  exact (supervisor_keeps_configuration quietWorld officeConfig eq_refl).
Defined.

Lemma loadConfig_fields_filled_witness :
  loadConfig (rt := GoJson.runtime) (worldWithFile bigPortFile)
    = Some (inr bigPortConfig, worldWithFile bigPortFile) /\
  AutoSSHPath bigPortConfig <> EmptyString /\
  Interface bigPortConfig <> EmptyString /\
  ServerAliveInterval (ServerOptions' bigPortConfig) <> 0 /\
  ServerAliveCountMax (ServerOptions' bigPortConfig) <> 0 /\
  setDefaults bigPortConfig = bigPortConfig.
Proof.
  assert (Hl : loadConfig (rt := GoJson.runtime) (worldWithFile bigPortFile)
               = Some (inr bigPortConfig, worldWithFile bigPortFile))
    by (vm_compute; reflexivity).
  split; [exact Hl|].
  exact (loadConfig_fields_filled (rt := GoJson.runtime) _ _ _ Hl).
Defined.

Lemma reloadConfiguration_success_witness :
  loadConfig (rt := GoJson.runtime) (worldWithFile bigPortFile)
    = Some (inr bigPortConfig, worldWithFile bigPortFile) /\
  exists w',
    reloadConfiguration (rt := GoJson.runtime) (worldWithFile bigPortFile) = Some (tt, w') /\
    app_config w' = Some bigPortConfig /\
    os_files w' = os_files (worldWithFile bigPortFile) /\
    os_trace w' = [] /\
    os_log w' =
      [Logged "Reloading configuration..." [];
       Logged "Configuration reloaded successfully with %d commands" [AInt 0]].
Proof.
  assert (Hl : loadConfig (rt := GoJson.runtime) (worldWithFile bigPortFile)
               = Some (inr bigPortConfig, worldWithFile bigPortFile))
    by (vm_compute; reflexivity).
  split; [exact Hl|].
  exact (reloadConfiguration_success (rt := GoJson.runtime) _ _ Hl).
Defined.


Lemma editConfiguration_keeps_existing_file_witness :
  os_user bundleWorld = inr (mkUser "/Users/alice") /\
  os_files bundleWorld !! homeConfigPath = Some (GoJson.MarshalIndent officeConfig) /\
  exists r w' cmd,
    editConfiguration (rt := desktopRuntime) (host := macHost) bundleWorld = Some (r, w') /\
    os_files w' = os_files bundleWorld /\
    app_config w' = app_config bundleWorld /\
    os_trace w' = os_trace bundleWorld ++ [cmd].
Proof.
  assert (Hf : os_files bundleWorld !! homeConfigPath
               = Some (GoJson.MarshalIndent officeConfig)) by (vm_compute; reflexivity).
  split; [reflexivity|]. split; [exact Hf|].
  exact (editConfiguration_keeps_existing_file (rt := desktopRuntime) (host := macHost)
           bundleWorld (mkUser "/Users/alice") _ eq_refl Hf).
Defined.


Lemma editConfiguration_first_run_then_reload_witness :
  (forall data, json_MarshalIndent (GoRuntime := desktopRuntime) dummyConfig = inr data ->
                json_Unmarshal (GoRuntime := desktopRuntime) data = inr dummyConfig) /\
  os_user freshWorld = inr (mkUser "/Users/alice") /\
  os_files freshWorld !! homeConfigPath = None /\
  os_write_ok freshWorld homeConfigPath = true /\
  (exists data, json_MarshalIndent (GoRuntime := desktopRuntime) dummyConfig = inr data) /\
  exists r w1 w2,
    editConfiguration (rt := desktopRuntime) (host := macHost) freshWorld = Some (r, w1) /\
    reloadConfiguration (rt := desktopRuntime) w1 = Some (tt, w2) /\
    app_config w2 = Some dummyConfig.
Proof.
  assert (Hrt : forall data,
             json_MarshalIndent (GoRuntime := desktopRuntime) dummyConfig = inr data ->
             json_Unmarshal (GoRuntime := desktopRuntime) data = inr dummyConfig).
  { intros data [= <-]. vm_compute. reflexivity. }
  assert (Hnone : os_files freshWorld !! homeConfigPath = None) by (vm_compute; reflexivity).
  assert (Hm : exists data,
             json_MarshalIndent (GoRuntime := desktopRuntime) dummyConfig = inr data).
  { eexists. reflexivity. }
  split; [exact Hrt|]. split; [reflexivity|]. split; [exact Hnone|].
  split; [reflexivity|]. split; [exact Hm|].
  exact (editConfiguration_first_run_then_reload (rt := desktopRuntime) (host := macHost)
           freshWorld (mkUser "/Users/alice") Hrt eq_refl Hnone eq_refl Hm).
Defined.

Lemma editConfiguration_ignores_EDITOR_witness :
  (forall ed, In ed editors ->
     exec_LookPath (Host := macHost) ed = exec_LookPath (Host := emacsHost) ed) /\
  os_Getenv (Host := macHost) "EDITOR" <> os_Getenv (Host := emacsHost) "EDITOR" /\
  editConfiguration (rt := desktopRuntime) (host := macHost) bundleWorld
  = editConfiguration (rt := desktopRuntime) (host := emacsHost) bundleWorld.
Proof.
  assert (Hsame : forall ed, In ed editors ->
            exec_LookPath (Host := macHost) ed = exec_LookPath (Host := emacsHost) ed).
  { intros ed _. reflexivity. }
  split; [exact Hsame|]. split; [discriminate|].
  exact (editConfiguration_ignores_EDITOR (rt := desktopRuntime) macHost emacsHost
           bundleWorld Hsame).
Defined.

Lemma editConfiguration_editor_precedence_witness :
  os_user bundleWorld = inr (mkUser "/Users/alice") /\
  os_files bundleWorld !! homeConfigPath = Some (GoJson.MarshalIndent officeConfig) /\
  exists r w' cmd,
    editConfiguration (rt := desktopRuntime) (host := macHost) bundleWorld = Some (r, w') /\
    os_trace w' = os_trace bundleWorld ++ [cmd] /\
    (forall ed, In ed ["code"; "subl"; "atom"] ->
       find (exec_LookPath (Host := macHost)) editors = Some ed ->
       cmd = Cmd ed [homeConfigPath]) /\
    (cmd_path cmd = "osascript" <->
     exec_LookPath (Host := macHost) "code" = false /\
     exec_LookPath (Host := macHost) "subl" = false /\
     exec_LookPath (Host := macHost) "atom" = false /\
     (exec_LookPath (Host := macHost) "nano" = true \/
      exec_LookPath (Host := macHost) "vim" = true)) /\
    (cmd = Cmd "open" ["-e"; homeConfigPath] <->
     forall ed, In ed editors -> exec_LookPath (Host := macHost) ed = false).
Proof.
  assert (Hf : os_files bundleWorld !! homeConfigPath
               = Some (GoJson.MarshalIndent officeConfig)) by (vm_compute; reflexivity).
  split; [reflexivity|]. split; [exact Hf|].
  exact (editConfiguration_editor_precedence (rt := desktopRuntime) (host := macHost)
           bundleWorld (mkUser "/Users/alice") _ eq_refl Hf).
Defined.

Lemma updateIcon_reflects_probe_witness :
  os_user bundleWorld = inr (mkUser "/Users/alice") /\
  exists b t',
    isVPNConnected bundleWorld = Some (b, tray_world t') /\
    updateIcon (rt := desktopRuntime) (host := macHost) (builtTray bundleWorld)
      = Some (tt, t') /\
    tray_tooltip t' = statusTooltip b /\
    disconnectItem t' = Some 2%nat /\
    tray_menu t' = alter (setDisabled (negb b)) 2%nat (tray_menu (builtTray bundleWorld)).
Proof.
  split; [reflexivity|].
  exact (updateIcon_reflects_probe (rt := desktopRuntime) (host := macHost)
           (builtTray bundleWorld) (mkUser "/Users/alice") eq_refl).
Defined.

Lemma updateIcon_first_candidate_decides_witness :
  os_user bundleWorld = inr (mkUser "/Users/alice") /\
  GoPath.Join (GoPath.Dir bundleExecutable) "../Resources" = bundleResources /\
  bundleResources <> EmptyString /\
  exists b t',
    isVPNConnected bundleWorld = Some (b, tray_world t') /\
    updateIcon (rt := desktopRuntime) (host := macHost) (builtTray bundleWorld)
      = Some (tt, t') /\
    match os_files bundleWorld !! GoPath.Join bundleResources (statusImage b) with
    | Some iconBytes => tray_icon t' = Some iconBytes /\ tray_title t' = EmptyString
    | None => tray_icon t' = Some "connected-image" /\ tray_title t' = statusGlyph b
    end.
Proof.
  assert (Hne : GoPath.Join (GoPath.Dir bundleExecutable) "../Resources" <> EmptyString)
    by discriminate.
  split; [reflexivity|]. split; [reflexivity|]. split; [discriminate|].
  exact (updateIcon_first_candidate_decides (rt := desktopRuntime) (host := macHost)
           (builtTray bundleWorld) (mkUser "/Users/alice") eq_refl Hne).
Defined.

Lemma startup_without_user_panics_witness :
  os_user noUserWorld = inl (SysError "user: unknown userid") /\
  exists w',
    mainSetup (rt := desktopRuntime) noUserWorld = Some (tt, w') /\
    app_config w' = Some minimalConfig /\
    forall t, tray_world t = w' ->
              onReady (rt := desktopRuntime) (host := macHost) t = None.
Proof.
  split; [reflexivity|].
  exact (startup_without_user_panics (rt := desktopRuntime) (host := macHost)
           noUserWorld _ eq_refl).
Defined.

Lemma buildMenu_layout_witness :
  app_config quietWorld = Some officeConfig /\
  exists b t' i,
    isVPNConnected quietWorld = Some (b, tray_world t') /\
    buildMenu (emptyTray quietWorld) = Some (tt, t') /\
    (forall k cmd, Commands officeConfig !! k = Some cmd ->
       tray_menu t' !! (0 + k)%nat = Some (commandItem cmd)) /\
    disconnectItem t' = Some i /\
    tray_menu t' !! i =
      Some (Item (mkMenuItem "Disconnect" "Disconnect from VPN" (negb b)) DisconnectNow) /\
    length (tray_menu t') = 7%nat.
Proof.
  split; [reflexivity|].
  exact (buildMenu_layout (emptyTray quietWorld) officeConfig eq_refl).
Defined.

Lemma onDisconnectClicked_settles_witness :
  app_config stubbornWorld = Some officeConfig /\
  os_user stubbornWorld = inr (mkUser "/Users/alice") /\
  disconnectItem (builtTray stubbornWorld) = Some 2%nat /\
  exists w1 b t' run,
    onDisconnectClicked (rt := desktopRuntime) (host := macHost) (builtTray stubbornWorld)
      = Some (tt, t') /\
    isVPNConnected w1 = Some (b, tray_world t') /\
    tray_menu t' = alter (setDisabled (negb b)) 2%nat (tray_menu (builtTray stubbornWorld)) /\
    tray_tooltip t' = statusTooltip b /\
    os_trace (tray_world t') = os_trace stubbornWorld ++ run /\
    In pkillAutossh run /\
    (2 <= probesIn run <= 21)%nat.
Proof.
  split; [reflexivity|]. split; [reflexivity|]. split; [reflexivity|].
  exact (onDisconnectClicked_settles (rt := desktopRuntime) (host := macHost)
           (builtTray stubbornWorld) officeConfig (mkUser "/Users/alice") 2%nat
           eq_refl eq_refl eq_refl).
Defined.

Lemma onConnectClicked_failed_start_keeps_tray_witness :
  app_config spawnFailsWorld = Some officeConfig /\
  findCommand "office" (Commands officeConfig) = Some officeFirst /\
  exists w1,
    disconnectVPN spawnFailsWorld = Some (None, w1) /\
    exec_err (os_exec spawnFailsWorld (os_trace w1)
                      (spawn officeConfig "office.example.com"))
      = Some (ExitError (Exited 255)) /\
    exists t',
      onConnectClicked (rt := desktopRuntime) (host := macHost) "office"
                       (builtTray spawnFailsWorld) = Some (tt, t') /\
      tray_menu t' = tray_menu (builtTray spawnFailsWorld) /\
      tray_tooltip t' = "SOCKS VPN Menu - Connected" /\
      tray_title t' = EmptyString /\
      tray_icon t' = Some "connected-image" /\
      In pkillAutossh (os_trace (tray_world t')) /\
      os_log (tray_world t') =
        os_log w1 ++ [Logged "Error connecting to %s: %v"
                        [AStr "office";
                         AErr (Errorf "failed to start autossh: %w"
                                      [AErr (ExitError (Exited 255))])]].
Proof.
  split; [reflexivity|]. split; [reflexivity|].
  destruct (disconnectVPN_spec spawnFailsWorld officeConfig eq_refl)
    as (w1 & Hd & _ & _ & _ & _ & tl & Ht & Hnp & _).
  assert (Htl : tl = []) by (apply Hnp; reflexivity).
  subst tl.
  assert (Hs : exec_err (os_exec spawnFailsWorld (os_trace w1)
                                 (spawn officeConfig "office.example.com"))
               = Some (ExitError (Exited 255))) by reflexivity.
  exists w1. split; [exact Hd|]. split; [exact Hs|].
  exact (onConnectClicked_failed_start_keeps_tray (rt := desktopRuntime) (host := macHost)
           (builtTray spawnFailsWorld) officeConfig "office" officeFirst w1
           (ExitError (Exited 255)) eq_refl eq_refl Hd Hs).
Defined.
